(** * Shallow embeddings of JavaScriptCore's GC-aware stub routines and of
      three WebCore classes

    The definitions come first: [WebCore] (media source states, generated CSS
    images, the scripted animation controller), then those of [JSC] (the stub
    routines), which are followed by the theorems about the stub routines and
    by the theorems about the WebCore classes. *)

From stdpp Require Import functions gmultiset strings gmap list.

(** * WebCore

    Shallow embeddings of
    [Source/WebCore/platform/mediastream/RealtimeMediaSourceStates.cpp], of
    the client and cache bookkeeping of
    [Source/WebCore/css/CSSImageGeneratorValue.cpp] and of the callback
    bookkeeping of [Source/WebCore/dom/ScriptedAnimationController.cpp]. *)

Module WebCore.

(** The outcome of a member function that may stop on an [ASSERT]. *)
Inductive Result (A : Type) :=
  | Returns (a : A)
  | AssertionFailed.
Arguments Returns {A} a.
Arguments AssertionFailed {A}.

(** ** RealtimeMediaSourceStates *)

Module RealtimeMediaSourceStates.

(** The enumerators are those the two switches handle; neither switch has a
    default case. *)
Inductive VideoFacingMode := Unknown | User | Environment | Left | Right.

Inductive SourceType := None | Camera | Microphone.

(** [emptyAtom], the empty [AtomicString]. *)
Definition emptyAtom : string := ""%string.

(** [RealtimeMediaSourceStates::facingMode(mode)]. *)
Definition facingMode (mode : VideoFacingMode) : string :=
  match mode with
  | User => "user"%string
  | Environment => "environment"%string
  | Left => "left"%string
  | Right => "right"%string
  | Unknown => emptyAtom
  end.

(** [RealtimeMediaSourceStates::sourceType(sourceType)]. *)
Definition sourceType (sourceType : SourceType) : string :=
  match sourceType with
  | None => "none"%string
  | Camera => "camera"%string
  | Microphone => "microphone"%string
  end.

End RealtimeMediaSourceStates.

(** ** CSSImageGeneratorValue

    The value keeps its clients in a [HashCountedSet<RenderElement*>] and its
    generated images in a [HashMap] from [FloatSize] to
    [CachedGeneratedImage]; a counted set is a multiset and the map a finite
    map.  [FloatSize] is a pair of floats: the model takes the type of sizes,
    with the equality the map needs, and [FloatSize::isEmpty] as parameters.
    A live reference-counted object has a count of at least one, so the count
    is a [positive] and a value that is destroyed is no value at all. *)

Module CSSImageGeneratorValue.

Section Sizes.

Context {FloatSize : Type} `{Countable FloatSize}.
Variable isEmpty : FloatSize → bool.

(** The eviction timer of a cached image.  The timer class is outside the
    translated sources and runs on the clock; the model keeps how often
    [restart()] was called on it. *)
Record DeferrableOneShotTimer := { restartCount : nat }.

(** [CSSImageGeneratorValue::CachedGeneratedImage]; [m_owner] is the value
    that holds the cache. *)
Record CachedGeneratedImage := {
  m_size : FloatSize;
  m_image : option positive;
  m_evictionTimer : DeferrableOneShotTimer
}.

Record Value := {
  m_refCount : positive;
  m_clients : gmultiset positive;
  m_images : gmap FloatSize CachedGeneratedImage
}.

(** [ref()] and [deref()] of the reference-counted base; the release of the
    last reference destroys the value. *)
Definition ref (v : Value) : Value :=
  {| m_refCount := Pos.succ (m_refCount v); m_clients := m_clients v;
     m_images := m_images v |}.

Definition deref (v : Value) : option Value :=
  if Pos.eqb (m_refCount v) 1 then Datatypes.None
  else Some {| m_refCount := Pos.pred (m_refCount v); m_clients := m_clients v;
               m_images := m_images v |}.

Definition set_clients (c : gmultiset positive) (v : Value) : Value :=
  {| m_refCount := m_refCount v; m_clients := c; m_images := m_images v |}.

Definition set_images (m : gmap FloatSize CachedGeneratedImage) (v : Value) : Value :=
  {| m_refCount := m_refCount v; m_clients := m_clients v; m_images := m |}.

(** [CSSImageGeneratorValue::addClient(renderer)]; the renderer is not null. *)
Definition addClient (renderer : positive) (v : Value) : Value :=
  let v := if decide (m_clients v = ∅) then ref v else v in
  set_clients (m_clients v ⊎ {[+ renderer +]}) v.

(** [CSSImageGeneratorValue::removeClient(renderer)]; the renderer is not
    null.  [HashCountedSet::remove] lowers the count of the renderer and tells
    whether it took the renderer out of the set.  The result is [None] when
    the value has been destroyed. *)
Definition removeClient (assertEnabled : bool) (renderer : positive) (v : Value)
    : Result (option Value) :=
  if assertEnabled && bool_decide (multiplicity renderer (m_clients v) = 0) then
    AssertionFailed
  else
    let removed := bool_decide (multiplicity renderer (m_clients v) = 1) in
    let v := set_clients (m_clients v ∖ {[+ renderer +]}) v in
    if removed && bool_decide (m_clients v = ∅) then Returns (deref v)
    else Returns (Some v).

(** [CachedGeneratedImage::puntEvictionTimer()]: the timer is restarted. *)
Definition puntEvictionTimer (c : CachedGeneratedImage) : CachedGeneratedImage :=
  {| m_size := m_size c; m_image := m_image c;
     m_evictionTimer := {| restartCount := S (restartCount (m_evictionTimer c)) |} |}.

(** [CSSImageGeneratorValue::cachedImageForSize(size)]: the image, null when
    there is none, and the value after the call. *)
Definition cachedImageForSize (size : FloatSize) (v : Value)
    : option positive * Value :=
  if isEmpty size then (Datatypes.None, v)
  else
    match m_images v !! size with
    | Datatypes.None => (Datatypes.None, v)
    | Some cachedGeneratedImage =>
        (m_image cachedGeneratedImage,
         set_images (<[size := puntEvictionTimer cachedGeneratedImage]> (m_images v)) v)
    end.

(** The constructor of [CachedGeneratedImage]: it restarts its timer. *)
Definition CachedGeneratedImage_ctor (size : FloatSize) (image : option positive)
    : CachedGeneratedImage :=
  {| m_size := size; m_image := image; m_evictionTimer := {| restartCount := 1 |} |}.

(** [CSSImageGeneratorValue::saveCachedImageForSize(size, image)];
    [HashMap::add] leaves an entry that is already there as it is. *)
Definition saveCachedImageForSize (assertEnabled : bool) (size : FloatSize)
    (image : option positive) (v : Value) : Result Value :=
  if assertEnabled && bool_decide (is_Some (m_images v !! size)) then AssertionFailed
  else
    match m_images v !! size with
    | Some _ => Returns v
    | Datatypes.None =>
        Returns (set_images (<[size := CachedGeneratedImage_ctor size image]> (m_images v)) v)
    end.

(** [CSSImageGeneratorValue::evictCachedGeneratedImage(size)]. *)
Definition evictCachedGeneratedImage (assertEnabled : bool) (size : FloatSize)
    (v : Value) : Result Value :=
  if assertEnabled && negb (bool_decide (is_Some (m_images v !! size))) then
    AssertionFailed
  else Returns (set_images (delete size (m_images v)) v).

(** [CachedGeneratedImage::evictionTimerFired()], on the cached image [c] of
    the value [v]. *)
Definition evictionTimerFired (assertEnabled : bool) (c : CachedGeneratedImage)
    (v : Value) : Result Value :=
  evictCachedGeneratedImage assertEnabled (m_size c) v.

(** The references to a value that are not the one it holds on itself while
    it has clients. *)
Definition referencesOfOthers (v : Value) : Z :=
  Z.pos (m_refCount v) - (if decide (m_clients v = ∅) then 0 else 1).

(** Every cached image is filed under its own size. *)
Definition filedBySize (v : Value) : Prop :=
  ∀ size c, m_images v !! size = Some c → m_size c = size.

End Sizes.

(** Sizes with integer sides, to run the model on. *)
Definition integerSizeIsEmpty (size : Z * Z) : bool :=
  (fst size <=? 0)%Z || (snd size <=? 0)%Z.

Definition sampleValue : Value (FloatSize := Z * Z) :=
  {| m_refCount := 1; m_clients := ∅; m_images := ∅ |}.

(** A value whose only client is the renderer at address 7 and whose only
    reference is the one it holds on itself. *)
Definition sampleValueWithClient : Value (FloatSize := Z * Z) :=
  {| m_refCount := 1; m_clients := {[+ 7%positive +]}; m_images := ∅ |}.

End CSSImageGeneratorValue.

(** ** ScriptedAnimationController

    Embedded are the functions that keep the callbacks and the suspend count
    and that schedule a frame; the constructor, [windowScreenDidChange], the
    two functions the timer and the display refresh monitor call back and
    [createDisplayRefreshMonitor] only reach into the platform and are left
    out.  The controller holds its callbacks by reference ([RefPtr]) and so does
    the script that registered them, and [serviceScriptedAnimations] works on
    a copy of the list of callbacks while the flags it reads and writes are
    those of the shared objects: the callback objects live in a store and the
    lists hold their addresses.  [CallbackId] and the suspend count are C++
    [int]s; they are integers here, since overflow of an [int] has no defined
    behaviour.  The timestamps are doubles that only travel to
    [handleEvent]; the model leaves them out and keeps which time base a
    callback was fired with.  Calls to the collaborators of the controller
    (inspector, timer, display refresh monitor, frame view) are recorded as
    events. *)

Module ScriptedAnimationController.

(** The preprocessor switches the file is compiled under. *)
Record BuildConfig := {
  USE_REQUEST_ANIMATION_FRAME_TIMER : bool;
  USE_REQUEST_ANIMATION_FRAME_DISPLAY_MONITOR : bool
}.

(** What the controller reads of its document: [settings()], which may be
    null, with [requestAnimationFrameEnabled()], and whether [view()] is
    null. *)
Record Settings := { settings_requestAnimationFrameEnabled : bool }.

Record Document := {
  settings : option Settings;
  hasView : bool
}.

(** The members of [RequestAnimationFrameCallback] the controller uses. *)
Record RequestAnimationFrameCallback := {
  m_id : Z;
  m_firedOrCancelled : bool;
  m_useLegacyTimeBase : bool
}.

Inductive Event :=
  | DidRequestAnimationFrame (id : Z)
  | DidCancelAnimationFrame (id : Z)
  | WillFireAnimationFrame (id : Z)
  | HandleEvent (callback : positive) (useLegacyTimeBase : bool)
  | DidFireAnimationFrame
  | DisplayMonitorScheduleAnimation
  | TimerStartOneShot
  | TimerStop
  | FrameViewScheduleAnimation.

Record Controller := {
  m_document : option Document;
  m_callbacks : list positive;
  m_nextCallbackId : Z;
  m_suspendCount : Z;
  m_isThrottled : bool;
  m_isUsingTimer : bool;
  m_animationTimerIsActive : bool
}.

(** The controller, the callback objects, what the display refresh monitor
    manager answers to [scheduleAnimation], and the calls made so far. *)
Record World := {
  controller : Controller;
  callbackObjects : positive → RequestAnimationFrameCallback;
  displayMonitorSchedules : bool;
  events : list Event
}.

Definition set_controller (c : Controller) (w : World) : World :=
  {| controller := c; callbackObjects := callbackObjects w;
     displayMonitorSchedules := displayMonitorSchedules w; events := events w |}.

Definition set_callbackObject (a : positive) (o : RequestAnimationFrameCallback)
    (w : World) : World :=
  {| controller := controller w;
     callbackObjects := <[a := o]> (callbackObjects w);
     displayMonitorSchedules := displayMonitorSchedules w; events := events w |}.

Definition record (e : Event) (w : World) : World :=
  {| controller := controller w; callbackObjects := callbackObjects w;
     displayMonitorSchedules := displayMonitorSchedules w;
     events := events w ++ [e] |}.

Definition set_callbacks (l : list positive) (c : Controller) : Controller :=
  {| m_document := m_document c; m_callbacks := l;
     m_nextCallbackId := m_nextCallbackId c; m_suspendCount := m_suspendCount c;
     m_isThrottled := m_isThrottled c; m_isUsingTimer := m_isUsingTimer c;
     m_animationTimerIsActive := m_animationTimerIsActive c |}.

Definition set_nextCallbackId (n : Z) (c : Controller) : Controller :=
  {| m_document := m_document c; m_callbacks := m_callbacks c;
     m_nextCallbackId := n; m_suspendCount := m_suspendCount c;
     m_isThrottled := m_isThrottled c; m_isUsingTimer := m_isUsingTimer c;
     m_animationTimerIsActive := m_animationTimerIsActive c |}.

Definition set_suspendCount (n : Z) (c : Controller) : Controller :=
  {| m_document := m_document c; m_callbacks := m_callbacks c;
     m_nextCallbackId := m_nextCallbackId c; m_suspendCount := n;
     m_isThrottled := m_isThrottled c; m_isUsingTimer := m_isUsingTimer c;
     m_animationTimerIsActive := m_animationTimerIsActive c |}.

Definition set_isThrottled (b : bool) (c : Controller) : Controller :=
  {| m_document := m_document c; m_callbacks := m_callbacks c;
     m_nextCallbackId := m_nextCallbackId c; m_suspendCount := m_suspendCount c;
     m_isThrottled := b; m_isUsingTimer := m_isUsingTimer c;
     m_animationTimerIsActive := m_animationTimerIsActive c |}.

Definition set_isUsingTimer (b : bool) (c : Controller) : Controller :=
  {| m_document := m_document c; m_callbacks := m_callbacks c;
     m_nextCallbackId := m_nextCallbackId c; m_suspendCount := m_suspendCount c;
     m_isThrottled := m_isThrottled c; m_isUsingTimer := b;
     m_animationTimerIsActive := m_animationTimerIsActive c |}.

Definition set_animationTimerIsActive (b : bool) (c : Controller) : Controller :=
  {| m_document := m_document c; m_callbacks := m_callbacks c;
     m_nextCallbackId := m_nextCallbackId c; m_suspendCount := m_suspendCount c;
     m_isThrottled := m_isThrottled c; m_isUsingTimer := m_isUsingTimer c;
     m_animationTimerIsActive := b |}.

Definition set_id (id : Z) (o : RequestAnimationFrameCallback)
    : RequestAnimationFrameCallback :=
  {| m_id := id; m_firedOrCancelled := m_firedOrCancelled o;
     m_useLegacyTimeBase := m_useLegacyTimeBase o |}.

Definition set_firedOrCancelled (b : bool) (o : RequestAnimationFrameCallback)
    : RequestAnimationFrameCallback :=
  {| m_id := m_id o; m_firedOrCancelled := b;
     m_useLegacyTimeBase := m_useLegacyTimeBase o |}.

(** [ScriptedAnimationController::requestAnimationFrameEnabled()]. *)
Definition requestAnimationFrameEnabled (c : Controller) : bool :=
  match m_document c with
  | Datatypes.None => false
  | Some document =>
      match settings document with
      | Datatypes.None => true
      | Some s => settings_requestAnimationFrameEnabled s
      end
  end.

(** [ScriptedAnimationController::suspend()]. *)
Definition suspend (w : World) : World :=
  set_controller (set_suspendCount (m_suspendCount (controller w) + 1) (controller w)) w.

(** The part of [scheduleAnimation()] from the test of the timer on: the
    one-shot timer is started unless it is active.  The delay is computed
    from doubles and is not modelled. *)
Definition startAnimationTimer (w : World) : World :=
  if m_animationTimerIsActive (controller w) then w
  else record TimerStartOneShot
         (set_controller (set_animationTimerIsActive true (controller w)) w).

(** [ScriptedAnimationController::scheduleAnimation()]. *)
Definition scheduleAnimation (cfg : BuildConfig) (w : World) : World :=
  if negb (requestAnimationFrameEnabled (controller w)) then w
  else if USE_REQUEST_ANIMATION_FRAME_TIMER cfg then
    if USE_REQUEST_ANIMATION_FRAME_DISPLAY_MONITOR cfg
       && negb (m_isUsingTimer (controller w))
       && negb (m_isThrottled (controller w))
    then
      let w := record DisplayMonitorScheduleAnimation w in
      if displayMonitorSchedules w then w
      else startAnimationTimer
             (set_controller (set_isUsingTimer true (controller w)) w)
    else startAnimationTimer w
  else
    match m_document (controller w) with
    | Some document =>
        if hasView document then record FrameViewScheduleAnimation w else w
    | Datatypes.None => w
    end.

(** [ScriptedAnimationController::resume()]. *)
Definition resume (cfg : BuildConfig) (w : World) : World :=
  let w :=
    if (0 <? m_suspendCount (controller w))%Z then
      set_controller
        (set_suspendCount (m_suspendCount (controller w) - 1) (controller w)) w
    else w in
  if (m_suspendCount (controller w) =? 0)%Z
     && negb (Nat.eqb (length (m_callbacks (controller w))) 0)
  then scheduleAnimation cfg w
  else w.

(** [ScriptedAnimationController::setThrottled(isThrottled)]. *)
Definition setThrottled (cfg : BuildConfig) (isThrottled : bool) (w : World) : World :=
  if USE_REQUEST_ANIMATION_FRAME_TIMER cfg
     && USE_REQUEST_ANIMATION_FRAME_DISPLAY_MONITOR cfg
  then
    if Bool.eqb (m_isThrottled (controller w)) isThrottled then w
    else
      let w := set_controller (set_isThrottled isThrottled (controller w)) w in
      if m_animationTimerIsActive (controller w) then
        scheduleAnimation cfg
          (record TimerStop
             (set_controller (set_animationTimerIsActive false (controller w)) w))
      else w
  else w.

(** [ScriptedAnimationController::isThrottled()]. *)
Definition isThrottled (cfg : BuildConfig) (w : World) : bool :=
  if USE_REQUEST_ANIMATION_FRAME_TIMER cfg
     && USE_REQUEST_ANIMATION_FRAME_DISPLAY_MONITOR cfg
  then m_isThrottled (controller w)
  else false.

(** [ScriptedAnimationController::registerCallback(callback)]: the id and the
    world after the call. *)
Definition registerCallback (cfg : BuildConfig) (callback : positive) (w : World)
    : Z * World :=
  let id := (m_nextCallbackId (controller w) + 1)%Z in
  let w := set_controller (set_nextCallbackId id (controller w)) w in
  let w := set_callbackObject callback
             (set_firedOrCancelled false (callbackObjects w callback)) w in
  let w := set_callbackObject callback (set_id id (callbackObjects w callback)) w in
  let w := set_controller
             (set_callbacks (m_callbacks (controller w) ++ [callback]) (controller w)) w in
  let w := record (DidRequestAnimationFrame id) w in
  let w := if (m_suspendCount (controller w) =? 0)%Z then scheduleAnimation cfg w
           else w in
  (id, w).

(** The loop of [cancelCallback]: the callbacks before position [i] are
    [before], those from [i] on are [rest]. *)
Fixpoint cancelCallbackFrom (id : Z) (before rest : list positive) (w : World)
    : World :=
  match rest with
  | [] => w
  | a :: rest' =>
      if (m_id (callbackObjects w a) =? id)%Z then
        let w := set_callbackObject a
                   (set_firedOrCancelled true (callbackObjects w a)) w in
        let w := record (DidCancelAnimationFrame id) w in
        set_controller (set_callbacks (before ++ rest') (controller w)) w
      else cancelCallbackFrom id (before ++ [a]) rest' w
  end.

(** [ScriptedAnimationController::cancelCallback(id)]. *)
Definition cancelCallback (id : Z) (w : World) : World :=
  cancelCallbackFrom id [] (m_callbacks (controller w)) w.

(** What the script of a callback may do to the controller while it runs. *)
Inductive ScriptAction :=
  | RequestAnimationFrame (callback : positive)
  | CancelAnimationFrame (id : Z)
  | Suspend
  | Resume.

Definition scriptStep (cfg : BuildConfig) (action : ScriptAction) (w : World) : World :=
  match action with
  | RequestAnimationFrame callback => snd (registerCallback cfg callback w)
  | CancelAnimationFrame id => cancelCallback id w
  | Suspend => suspend w
  | Resume => resume cfg w
  end.

Fixpoint runScript (cfg : BuildConfig) (actions : list ScriptAction) (w : World)
    : World :=
  match actions with
  | [] => w
  | action :: actions => runScript cfg actions (scriptStep cfg action w)
  end.

(** The second loop of [serviceScriptedAnimations]: the callbacks that have
    fired or been cancelled are taken out of the list. *)
Definition removeFiredOrCancelled (w : World) : World :=
  set_controller
    (set_callbacks
       (filter (λ a, m_firedOrCancelled (callbackObjects w a) = false)
          (m_callbacks (controller w)))
       (controller w)) w.

Section Callbacks.

(** [RequestAnimationFrameCallback::handleEvent] is script: what the callback
    at an address does, in the world it is called in, is a parameter. *)
Variable handleEvent : positive → World → list ScriptAction.

(** The first loop of [serviceScriptedAnimations], over the copy of the list
    of callbacks. *)
Fixpoint fireCallbacks (cfg : BuildConfig) (callbacks : list positive) (w : World)
    : World :=
  match callbacks with
  | [] => w
  | callback :: callbacks =>
      let w :=
        if m_firedOrCancelled (callbackObjects w callback) then w
        else
          let w := set_callbackObject callback
                     (set_firedOrCancelled true (callbackObjects w callback)) w in
          let w := record (WillFireAnimationFrame
                             (m_id (callbackObjects w callback))) w in
          let w := record (HandleEvent callback
                             (m_useLegacyTimeBase (callbackObjects w callback))) w in
          let w := runScript cfg (handleEvent callback w) w in
          record DidFireAnimationFrame w in
      fireCallbacks cfg callbacks w
  end.

(** [ScriptedAnimationController::serviceScriptedAnimations(timestamp)]. *)
Definition serviceScriptedAnimations (cfg : BuildConfig) (w : World) : World :=
  if Nat.eqb (length (m_callbacks (controller w))) 0
     || negb (m_suspendCount (controller w) =? 0)%Z
     || negb (requestAnimationFrameEnabled (controller w))
  then w
  else
    let callbacks := m_callbacks (controller w) in
    let w := fireCallbacks cfg callbacks w in
    let w := removeFiredOrCancelled w in
    if negb (Nat.eqb (length (m_callbacks (controller w))) 0)
    then scheduleAnimation cfg w
    else w.

(** The operations on a controller, as its document and the page invoke
    them. *)
Inductive Operation :=
  | RegisterCallback (callback : positive)
  | CancelCallback (id : Z)
  | SuspendController
  | ResumeController
  | SetThrottled (isThrottled : bool)
  | ServiceScriptedAnimations.

Definition perform (cfg : BuildConfig) (op : Operation) (w : World) : World :=
  match op with
  | RegisterCallback callback => snd (registerCallback cfg callback w)
  | CancelCallback id => cancelCallback id w
  | SuspendController => suspend w
  | ResumeController => resume cfg w
  | SetThrottled isThrottled => setThrottled cfg isThrottled w
  | ServiceScriptedAnimations => serviceScriptedAnimations cfg w
  end.

Fixpoint performAll (cfg : BuildConfig) (ops : list Operation) (w : World) : World :=
  match ops with
  | [] => w
  | op :: ops => performAll cfg ops (perform cfg op w)
  end.

End Callbacks.

(** The callbacks whose [handleEvent] the events record, in order. *)
Definition firedCallbacks (l : list Event) : list positive :=
  omap (λ e, match e with HandleEvent a _ => Some a | _ => Datatypes.None end) l.


(** Two worlds that differ in nothing the bookkeeping of callbacks reads:
    only in the scheduling state and in events that are no [HandleEvent]. *)
Definition sameBookkeeping (w w' : World) : Prop :=
  m_document (controller w') = m_document (controller w)
  ∧ m_callbacks (controller w') = m_callbacks (controller w)
  ∧ m_nextCallbackId (controller w') = m_nextCallbackId (controller w)
  ∧ m_suspendCount (controller w') = m_suspendCount (controller w)
  ∧ callbackObjects w' = callbackObjects w
  ∧ firedCallbacks (events w') = firedCallbacks (events w).


(** No callback has fired from a world to a later one. *)
Definition silent (w w' : World) : Prop :=
  firedCallbacks (events w') = firedCallbacks (events w).

(** A controller for a document with a view, and callback objects that have
    not been registered. *)
Definition sampleDocument : Document :=
  {| settings := Some {| settings_requestAnimationFrameEnabled := true |};
     hasView := true |}.

Definition initialWorld : World :=
  {| controller :=
       {| m_document := Some sampleDocument; m_callbacks := [];
          m_nextCallbackId := 0; m_suspendCount := 0; m_isThrottled := false;
          m_isUsingTimer := false; m_animationTimerIsActive := false |};
     callbackObjects := λ _, {| m_id := 0; m_firedOrCancelled := false;
                                m_useLegacyTimeBase := false |};
     displayMonitorSchedules := true;
     events := [] |}.


Definition frameViewBuild : BuildConfig :=
  {| USE_REQUEST_ANIMATION_FRAME_TIMER := false;
     USE_REQUEST_ANIMATION_FRAME_DISPLAY_MONITOR := false |}.

(** A script that does nothing, and one in which the callback at address 1
    requests another frame for the callback at address 3. *)
Definition quietScript (a : positive) (w : World) : list ScriptAction := [].

Definition chainingScript (a : positive) (w : World) : list ScriptAction :=
  if Pos.eqb a 1 then [RequestAnimationFrame 3] else [].

(** The initial world after the callbacks at addresses 1 and 2 have been
    registered. *)
Definition twoPendingWorld : World :=
  performAll quietScript frameViewBuild
    [RegisterCallback 1; RegisterCallback 2] initialWorld.

End ScriptedAnimationController.

End WebCore.

(** * GCAwareJITStubRoutine: lifetime of JIT stub routines shared between
      reference counting and the garbage collector

    Shallow embedding of
    [Source/JavaScriptCore/jit/GCAwareJITStubRoutine.cpp].

    The C++ heap of stub-routine objects, the heap's set of stub routines
    ([vm.heap.m_jitStubRoutines]) and the code blocks that routines point
    back to are threaded explicitly as a [World].  Member functions take the
    address [this] and return an [Outcome]: either the world after the call
    or the reason the process stopped. *)

Module JSC.

(** ** Build configuration

    The file is compiled under preprocessor switches that decide which
    statements exist at all: [ASSERT] is a debug assertion (compiled out when
    assertions are disabled), [RELEASE_ASSERT] is always compiled in, and the
    handler cleanup of the exception-handling routine sits inside
    [#if ENABLE(DFG_JIT)].  The macros themselves are not part of the
    translated file, so the two switches are parameters of the model. *)
Record BuildConfig := {
  ASSERT_ENABLED : bool;
  ENABLE_DFG_JIT : bool
}.

Definition debugBuild : BuildConfig :=
  {| ASSERT_ENABLED := true; ENABLE_DFG_JIT := true |}.
Definition releaseBuild : BuildConfig :=
  {| ASSERT_ENABLED := false; ENABLE_DFG_JIT := true |}.

(** ** Outcomes *)

Inductive Fatal :=
  | AssertionFailure          (* a failed ASSERT *)
  | ReleaseAssertionFailure   (* a failed RELEASE_ASSERT *)
  | RefCountUnderflow         (* release() on a count that is already zero *)
  | InvalidPointer.           (* a member access through a pointer to no live object *)

Inductive Outcome (A : Type) :=
  | Done (a : A)
  | Abort (f : Fatal).
Arguments Done {A} a.
Arguments Abort {A} f.

Definition bind {A B} (m : Outcome A) (k : A -> Outcome B) : Outcome B :=
  match m with
  | Done a => k a
  | Abort f => Abort f
  end.

Notation "x <- m ;;; k" := (bind m (fun x => k))
  (at level 100, m at next level, right associativity).
Notation "m ;;; k" := (bind m (fun _ => k))
  (at level 100, right associativity).

Definition ASSERT (cfg : BuildConfig) (c : bool) : Outcome unit :=
  if ASSERT_ENABLED cfg then (if c then Done tt else Abort AssertionFailure)
  else Done tt.

Definition RELEASE_ASSERT (c : bool) : Outcome unit :=
  if c then Done tt else Abort ReleaseAssertionFailure.

(** ** Data model *)

(** [MacroAssemblerCodeRef]: a handle to generated code. *)
Record MacroAssemblerCodeRef := {
  codeStart : N;
  codeSize : N
}.

(** [CallSiteIndex] wraps an unsigned; [bits()] reads it. *)
Record CallSiteIndex := { bits : N }.

(** Modelled from the spec: [JITCode::JITType] and [JITCode::isOptimizingJIT]
    live in JITCode.h, which is not part of the translated sources.  The spec
    speaks of the code unit's compilation tier being "one that supports
    exception unwinding metadata"; the tiers are those of JavaScriptCore and
    the optimizing ones are DFG and FTL. *)
Inductive JITType :=
  | NoneJIT | HostCallThunk | InterpreterThunk | BaselineJIT | DFGJIT | FTLJIT.

Definition isOptimizingJIT (t : JITType) : bool :=
  match t with
  | DFGJIT | FTLJIT => true
  | _ => false
  end.

(** Modelled from the spec: [CodeBlock] and [DFG::CommonData] are declared
    outside the translated sources.  Following the spec's HandlerTable
    interface, a code unit carries a handler table, "the mapping from a
    call-site identifier to the exception-unwinding metadata", and auxiliary
    metadata holding the call-site indices in use. *)
Record HandlerInfo := { handlerTarget : N }.

(** Modelled from the spec: the code unit, with its compilation tier, its
    handler table and the call-site indices of its auxiliary metadata. *)
Record CodeBlock := {
  jitType : JITType;
  m_exceptionHandlers : gmap N HandlerInfo;
  dfgCommon_callSiteIndices : gset N
}.

(** Modelled from the spec: [CodeBlock::handlerForIndex], looking up the
    handler-table entry of a call site. *)
Definition handlerForIndex (cb : CodeBlock) (index : N) : option HandlerInfo :=
  m_exceptionHandlers cb !! index.

(** Modelled from the spec: [removeCallSiteMetadata(codeUnit, callSiteIndex)],
    in the source [jitCode()->dfgCommon()->removeCallSiteIndex]. *)
Definition removeCallSiteIndex (i : CallSiteIndex) (cb : CodeBlock) : CodeBlock :=
  {| jitType := jitType cb;
     m_exceptionHandlers := m_exceptionHandlers cb;
     dfgCommon_callSiteIndices := dfgCommon_callSiteIndices cb ∖ {[ bits i ]} |}.

(** Modelled from the spec: [removeEntry(codeUnit, callSiteIndex)], in the
    source [CodeBlock::removeExceptionHandlerForCallSite]. *)
Definition removeExceptionHandlerForCallSite (i : CallSiteIndex) (cb : CodeBlock) : CodeBlock :=
  {| jitType := jitType cb;
     m_exceptionHandlers := delete (bits i) (m_exceptionHandlers cb);
     dfgCommon_callSiteIndices := dfgCommon_callSiteIndices cb |}.

(** The most-derived class of a routine object; virtual calls dispatch on it. *)
Inductive RoutineClass :=
  | JITStubRoutine_class
  | GCAwareJITStubRoutine_class
  | MarkingGCAwareJITStubRoutineWithOneObject_class
  | GCAwareJITStubRoutineWithExceptionHandler_class.

Definition isGCAware (c : RoutineClass) : bool :=
  match c with
  | JITStubRoutine_class => false
  | _ => true
  end.

(** A routine object with the data members of the whole hierarchy:
    [m_code], [m_refCount] (JITStubRoutine); [m_mayBeExecuting],
    [m_isJettisoned] (GCAwareJITStubRoutine); [m_object]
    (MarkingGCAwareJITStubRoutineWithOneObject, a [WriteBarrier<JSCell>]);
    [m_codeBlockWithExceptionHandler], [m_exceptionHandlerCallSiteIndex]
    (GCAwareJITStubRoutineWithExceptionHandler).  Pointers that may be null
    are options; an address is a [positive]. *)
Record Routine := {
  dynamicClass : RoutineClass;
  m_code : MacroAssemblerCodeRef;
  m_refCount : N;
  m_mayBeExecuting : bool;
  m_isJettisoned : bool;
  m_object : option positive;
  m_codeBlockWithExceptionHandler : option positive;
  m_exceptionHandlerCallSiteIndex : CallSiteIndex
}.

Definition set_refCount (n : N) (r : Routine) : Routine :=
  {| dynamicClass := dynamicClass r; m_code := m_code r; m_refCount := n;
     m_mayBeExecuting := m_mayBeExecuting r; m_isJettisoned := m_isJettisoned r;
     m_object := m_object r;
     m_codeBlockWithExceptionHandler := m_codeBlockWithExceptionHandler r;
     m_exceptionHandlerCallSiteIndex := m_exceptionHandlerCallSiteIndex r |}.

Definition set_mayBeExecuting (b : bool) (r : Routine) : Routine :=
  {| dynamicClass := dynamicClass r; m_code := m_code r; m_refCount := m_refCount r;
     m_mayBeExecuting := b; m_isJettisoned := m_isJettisoned r;
     m_object := m_object r;
     m_codeBlockWithExceptionHandler := m_codeBlockWithExceptionHandler r;
     m_exceptionHandlerCallSiteIndex := m_exceptionHandlerCallSiteIndex r |}.

Definition set_isJettisoned (b : bool) (r : Routine) : Routine :=
  {| dynamicClass := dynamicClass r; m_code := m_code r; m_refCount := m_refCount r;
     m_mayBeExecuting := m_mayBeExecuting r; m_isJettisoned := b;
     m_object := m_object r;
     m_codeBlockWithExceptionHandler := m_codeBlockWithExceptionHandler r;
     m_exceptionHandlerCallSiteIndex := m_exceptionHandlerCallSiteIndex r |}.

Definition set_object (o : option positive) (r : Routine) : Routine :=
  {| dynamicClass := dynamicClass r; m_code := m_code r; m_refCount := m_refCount r;
     m_mayBeExecuting := m_mayBeExecuting r; m_isJettisoned := m_isJettisoned r;
     m_object := o;
     m_codeBlockWithExceptionHandler := m_codeBlockWithExceptionHandler r;
     m_exceptionHandlerCallSiteIndex := m_exceptionHandlerCallSiteIndex r |}.

Definition set_codeBlockWithExceptionHandler (cb : option positive) (r : Routine) : Routine :=
  {| dynamicClass := dynamicClass r; m_code := m_code r; m_refCount := m_refCount r;
     m_mayBeExecuting := m_mayBeExecuting r; m_isJettisoned := m_isJettisoned r;
     m_object := m_object r;
     m_codeBlockWithExceptionHandler := cb;
     m_exceptionHandlerCallSiteIndex := m_exceptionHandlerCallSiteIndex r |}.

Definition set_exceptionHandlerCallSiteIndex (i : CallSiteIndex) (r : Routine) : Routine :=
  {| dynamicClass := dynamicClass r; m_code := m_code r; m_refCount := m_refCount r;
     m_mayBeExecuting := m_mayBeExecuting r; m_isJettisoned := m_isJettisoned r;
     m_object := m_object r;
     m_codeBlockWithExceptionHandler := m_codeBlockWithExceptionHandler r;
     m_exceptionHandlerCallSiteIndex := i |}.

(** The part of the process the module reads and writes. *)
Record World := {
  routines : gmap positive Routine;     (* live stub-routine objects, by address *)
  m_jitStubRoutines : list positive;    (* vm.heap.m_jitStubRoutines *)
  codeBlocks : gmap positive CodeBlock  (* live code blocks, by address *)
}.

Definition set_routines (rs : gmap positive Routine) (w : World) : World :=
  {| routines := rs; m_jitStubRoutines := m_jitStubRoutines w;
     codeBlocks := codeBlocks w |}.

Definition set_codeBlocks (cbs : gmap positive CodeBlock) (w : World) : World :=
  {| routines := routines w; m_jitStubRoutines := m_jitStubRoutines w;
     codeBlocks := cbs |}.

(** Reading [*this]: stops when [this] points to no live routine. *)
Definition load (this : positive) (w : World) : Outcome Routine :=
  match routines w !! this with
  | Some r => Done r
  | None => Abort InvalidPointer
  end.

Definition store (this : positive) (r : Routine) (w : World) : World :=
  set_routines (<[this := r]> (routines w)) w.

(** [delete this]: the destructors of the hierarchy have empty bodies, so
    destroying a routine only frees its object. *)
Definition delete_this (this : positive) (w : World) : World :=
  set_routines (delete this (routines w)) w.

Definition loadCodeBlock (p : positive) (w : World) : Outcome CodeBlock :=
  match codeBlocks w !! p with
  | Some cb => Done cb
  | None => Abort InvalidPointer
  end.

Definition storeCodeBlock (p : positive) (cb : CodeBlock) (w : World) : World :=
  set_codeBlocks (<[p := cb]> (codeBlocks w)) w.

(** Modelled from the spec: [JITStubRoutineSet::add] is declared outside the
    translated sources; the RootRegistry's [register(routine)] records the
    routine, here at the end of the list of registered routines. *)
Definition JITStubRoutineSet_add (this : positive) (w : World) : World :=
  {| routines := routines w;
     m_jitStubRoutines := m_jitStubRoutines w ++ [this];
     codeBlocks := codeBlocks w |}.

(** Modelled from the spec: [SlotVisitor] (the Tracer) is declared outside
    the translated sources; [visit(managedObjectRef)] "produces no return
    value, side effect is marking".  The visitor records, in order, the
    content of every slot it was handed. *)
Record SlotVisitor := { visited : list (option positive) }.

(** Modelled from the spec: [SlotVisitor::append], the Tracer's
    [visit(managedObjectRef)], called "once per retained object". *)
Definition SlotVisitor_append (slot : option positive) (v : SlotVisitor) : SlotVisitor :=
  {| visited := visited v ++ [slot] |}.

(** ** GCAwareJITStubRoutine *)

(** [operator new]: an address at which no routine lives, holding an object
    of the requested most-derived class whose members are not yet
    initialised. *)
Definition rawRoutine (c : RoutineClass) : Routine :=
  {| dynamicClass := c;
     m_code := {| codeStart := 0; codeSize := 0 |};
     m_refCount := 0;
     m_mayBeExecuting := false;
     m_isJettisoned := false;
     m_object := None;
     m_codeBlockWithExceptionHandler := None;
     m_exceptionHandlerCallSiteIndex := {| bits := 0 |} |}.

Definition operator_new (c : RoutineClass) (w : World) : positive * World :=
  let this := fresh (dom (routines w)) in
  (this, store this (rawRoutine c) w).

(** Running a constructor body on the object under construction. *)
Definition construct (this : positive) (f : Routine -> Routine) (w : World) : World :=
  set_routines (alter f this (routines w)) w.

(** Modelled from the spec: the constructor [JITStubRoutine(code)] is in
    JITStubRoutine.h, outside the translated sources.  It takes the code and
    starts the count at one ("refcount starts at 1"), the reference that
    [adoptRef] hands to the caller. *)
Definition JITStubRoutine_ctor (this : positive) (code : MacroAssemblerCodeRef)
    (w : World) : World :=
  construct this (fun r =>
    {| dynamicClass := dynamicClass r; m_code := code; m_refCount := 1;
       m_mayBeExecuting := m_mayBeExecuting r; m_isJettisoned := m_isJettisoned r;
       m_object := m_object r;
       m_codeBlockWithExceptionHandler := m_codeBlockWithExceptionHandler r;
       m_exceptionHandlerCallSiteIndex := m_exceptionHandlerCallSiteIndex r |}) w.

(** [GCAwareJITStubRoutine::GCAwareJITStubRoutine(code, vm)]. *)
Definition GCAwareJITStubRoutine_ctor (this : positive)
    (code : MacroAssemblerCodeRef) (w : World) : World :=
  let w := JITStubRoutine_ctor this code w in
  let w := construct this (set_mayBeExecuting false) w in
  let w := construct this (set_isJettisoned false) w in
  JITStubRoutineSet_add this w.

(** [GCAwareJITStubRoutine::observeZeroRefCount()]. *)
Definition GCAwareJITStubRoutine_observeZeroRefCount (this : positive)
    (w : World) : Outcome World :=
  r <- load this w ;;;
  if m_isJettisoned r then
    Done (delete_this this w)
  else
    RELEASE_ASSERT (N.eqb (m_refCount r) 0) ;;;
    Done (store this (set_isJettisoned true r) w).

(** [GCAwareJITStubRoutine::deleteFromGC()]. *)
Definition deleteFromGC (cfg : BuildConfig) (this : positive) (w : World)
    : Outcome World :=
  r <- load this w ;;;
  ASSERT cfg (m_isJettisoned r) ;;;
  ASSERT cfg (N.eqb (m_refCount r) 0) ;;;
  ASSERT cfg (negb (m_mayBeExecuting r)) ;;;
  Done (delete_this this w).

(** [GCAwareJITStubRoutine::markRequiredObjectsInternal(SlotVisitor&)]:
    the body is empty. *)
Definition GCAwareJITStubRoutine_markRequiredObjectsInternal (this : positive)
    (visitor : SlotVisitor) (w : World) : Outcome (World * SlotVisitor) :=
  Done (w, visitor).

(** ** MarkingGCAwareJITStubRoutineWithOneObject *)

(** The constructor: the base constructor, then [m_object(vm, owner, object)]. *)
Definition MarkingGCAwareJITStubRoutineWithOneObject_ctor (this : positive)
    (code : MacroAssemblerCodeRef) (owner object : option positive)
    (w : World) : World :=
  let w := GCAwareJITStubRoutine_ctor this code w in
  construct this (set_object object) w.

(** [MarkingGCAwareJITStubRoutineWithOneObject::markRequiredObjectsInternal]. *)
Definition MarkingGCAwareJITStubRoutineWithOneObject_markRequiredObjectsInternal
    (this : positive) (visitor : SlotVisitor) (w : World)
    : Outcome (World * SlotVisitor) :=
  r <- load this w ;;;
  Done (w, SlotVisitor_append (m_object r) visitor).

(** ** GCAwareJITStubRoutineWithExceptionHandler *)

(** The constructor.  [m_codeBlockWithExceptionHandler->handlerForIndex]
    reads the code block, so a non-null pointer to no live code block stops
    the evaluation of the ASSERT's condition. *)
Definition GCAwareJITStubRoutineWithExceptionHandler_ctor (cfg : BuildConfig)
    (this : positive) (code : MacroAssemblerCodeRef)
    (codeBlockForExceptionHandlers : option positive)
    (exceptionHandlerCallSiteIndex : CallSiteIndex) (w : World) : Outcome World :=
  let w := GCAwareJITStubRoutine_ctor this code w in
  let w := construct this
             (set_codeBlockWithExceptionHandler codeBlockForExceptionHandlers) w in
  let w := construct this
             (set_exceptionHandlerCallSiteIndex exceptionHandlerCallSiteIndex) w in
  RELEASE_ASSERT (bool_decide (is_Some codeBlockForExceptionHandlers)) ;;;
  (if ASSERT_ENABLED cfg then
     match codeBlockForExceptionHandlers with
     | Some p =>
         cb <- loadCodeBlock p w ;;;
         ASSERT cfg (bool_decide
           (is_Some (handlerForIndex cb (bits exceptionHandlerCallSiteIndex))))
     | None => Abort InvalidPointer
     end
   else Done tt) ;;;
  Done w.

(** [GCAwareJITStubRoutineWithExceptionHandler::aboutToDie()]. *)
Definition aboutToDie (this : positive) (w : World) : Outcome World :=
  r <- load this w ;;;
  Done (store this (set_codeBlockWithExceptionHandler None r) w).

(** [GCAwareJITStubRoutineWithExceptionHandler::observeZeroRefCount()]. *)
Definition GCAwareJITStubRoutineWithExceptionHandler_observeZeroRefCount
    (cfg : BuildConfig) (this : positive) (w : World) : Outcome World :=
  w <- (if ENABLE_DFG_JIT cfg then
          r <- load this w ;;;
          match m_codeBlockWithExceptionHandler r with
          | Some p =>
              cb <- loadCodeBlock p w ;;;
              let w := storeCodeBlock p
                         (removeCallSiteIndex (m_exceptionHandlerCallSiteIndex r) cb) w in
              cb <- loadCodeBlock p w ;;;
              let w := storeCodeBlock p
                         (removeExceptionHandlerForCallSite
                            (m_exceptionHandlerCallSiteIndex r) cb) w in
              Done (store this (set_codeBlockWithExceptionHandler None r) w)
          | None => Done w
          end
        else Done w) ;;;
  GCAwareJITStubRoutine_observeZeroRefCount this w.

(** ** JITStubRoutine: the reference-counted base *)

(** Modelled from the spec: [JITStubRoutine::observeZeroRefCount] of the
    reference-counted base class is outside the translated sources.  A plain
    routine is "destroyed when reference count reaches zero". *)
Definition JITStubRoutine_observeZeroRefCount (this : positive) (w : World)
    : Outcome World :=
  _ <- load this w ;;;
  Done (delete_this this w).

(** The virtual call [observeZeroRefCount()]. *)
Definition observeZeroRefCount (cfg : BuildConfig) (this : positive) (w : World)
    : Outcome World :=
  r <- load this w ;;;
  match dynamicClass r with
  | JITStubRoutine_class => JITStubRoutine_observeZeroRefCount this w
  | GCAwareJITStubRoutine_class
  | MarkingGCAwareJITStubRoutineWithOneObject_class =>
      GCAwareJITStubRoutine_observeZeroRefCount this w
  | GCAwareJITStubRoutineWithExceptionHandler_class =>
      GCAwareJITStubRoutineWithExceptionHandler_observeZeroRefCount cfg this w
  end.

(** The virtual call [markRequiredObjectsInternal(visitor)], a member of
    GCAwareJITStubRoutine: a plain JITStubRoutine has no such member. *)
Definition markRequiredObjectsInternal (this : positive) (visitor : SlotVisitor)
    (w : World) : Outcome (World * SlotVisitor) :=
  r <- load this w ;;;
  match dynamicClass r with
  | JITStubRoutine_class => Abort InvalidPointer
  | GCAwareJITStubRoutine_class
  | GCAwareJITStubRoutineWithExceptionHandler_class =>
      GCAwareJITStubRoutine_markRequiredObjectsInternal this visitor w
  | MarkingGCAwareJITStubRoutineWithOneObject_class =>
      MarkingGCAwareJITStubRoutineWithOneObject_markRequiredObjectsInternal
        this visitor w
  end.

(** Modelled from the spec: [acquire()] of the base class (in the source,
    [JITStubRoutine::ref], outside the translated sources) "increments
    refcount (no precondition)". *)
Definition ref (this : positive) (w : World) : Outcome World :=
  r <- load this w ;;;
  Done (store this (set_refCount (m_refCount r + 1) r) w).

(** Modelled from the spec: [release()] of the base class (in the source,
    [JITStubRoutine::deref], outside the translated sources) "decrements
    refcount and, when it reaches zero, invokes observeZeroRefCount() exactly
    once"; "decrementing below zero is a fatal contract violation". *)
Definition deref (cfg : BuildConfig) (this : positive) (w : World) : Outcome World :=
  r <- load this w ;;;
  if N.eqb (m_refCount r) 0 then Abort RefCountUnderflow
  else
    let w := store this (set_refCount (m_refCount r - 1) r) w in
    if N.eqb (m_refCount r - 1) 0 then observeZeroRefCount cfg this w
    else Done w.

(** ** The factory *)

(** [createJITStubRoutine(code, vm, owner, makesCalls, object,
    codeBlockForExceptionHandlers, exceptionHandlerCallSiteIndex)]; the
    result is the address of the new routine. *)
Definition createJITStubRoutine (cfg : BuildConfig)
    (code : MacroAssemblerCodeRef) (owner : option positive) (makesCalls : bool)
    (object : option positive) (codeBlockForExceptionHandlers : option positive)
    (exceptionHandlerCallSiteIndex : CallSiteIndex) (w : World)
    : Outcome (positive * World) :=
  if negb makesCalls then
    let '(this, w) := operator_new JITStubRoutine_class w in
    Done (this, JITStubRoutine_ctor this code w)
  else
    match codeBlockForExceptionHandlers with
    | Some p =>
        RELEASE_ASSERT (negb (bool_decide (is_Some object))) ;;;
        cb <- loadCodeBlock p w ;;;
        RELEASE_ASSERT (isOptimizingJIT (jitType cb)) ;;;
        let '(this, w) :=
          operator_new GCAwareJITStubRoutineWithExceptionHandler_class w in
        w <- GCAwareJITStubRoutineWithExceptionHandler_ctor cfg this code
               codeBlockForExceptionHandlers exceptionHandlerCallSiteIndex w ;;;
        Done (this, w)
    | None =>
        match object with
        | None =>
            let '(this, w) := operator_new GCAwareJITStubRoutine_class w in
            Done (this, GCAwareJITStubRoutine_ctor this code w)
        | Some _ =>
            let '(this, w) :=
              operator_new MarkingGCAwareJITStubRoutineWithOneObject_class w in
            Done (this, MarkingGCAwareJITStubRoutineWithOneObject_ctor
                          this code owner object w)
        end
    end.

(** ** Sequences of operations *)

(** The operations of the module as a client, the collector or a code block
    invokes them. *)
Inductive Operation :=
  | Create (code : MacroAssemblerCodeRef) (owner : option positive)
      (makesCalls : bool) (object : option positive)
      (codeBlockForExceptionHandlers : option positive)
      (exceptionHandlerCallSiteIndex : CallSiteIndex)
  | Acquire (this : positive)
  | Release (this : positive)
  | ObserveZeroRefCount (this : positive)
  | DeleteFromGC (this : positive)
  | MarkRequiredObjects (this : positive)
  | AboutToDie (this : positive).

Definition perform (cfg : BuildConfig) (op : Operation) (s : World * SlotVisitor)
    : Outcome (World * SlotVisitor) :=
  let '(w, v) := s in
  match op with
  | Create code owner makesCalls object cb idx =>
      res <- createJITStubRoutine cfg code owner makesCalls object cb idx w ;;;
      Done (snd res, v)
  | Acquire this => w <- ref this w ;;; Done (w, v)
  | Release this => w <- deref cfg this w ;;; Done (w, v)
  | ObserveZeroRefCount this => w <- observeZeroRefCount cfg this w ;;; Done (w, v)
  | DeleteFromGC this => w <- deleteFromGC cfg this w ;;; Done (w, v)
  | MarkRequiredObjects this => markRequiredObjectsInternal this v w
  | AboutToDie this => w <- aboutToDie this w ;;; Done (w, v)
  end.

(** Performing a sequence of operations on a routine that is observed after
    every one of them: the run stops with [None] as soon as an operation
    aborts or the object at [this] is gone. *)
Fixpoint performWhileAlive (cfg : BuildConfig) (this : positive)
    (ops : list Operation) (s : World * SlotVisitor)
    : option (World * SlotVisitor) :=
  match ops with
  | [] => Some s
  | op :: ops =>
      match perform cfg op s with
      | Done s' =>
          match routines (fst s') !! this with
          | Some _ => performWhileAlive cfg this ops s'
          | None => None
          end
      | Abort _ => None
      end
  end.

(** Releasing one reference after the other. *)
Fixpoint derefTimes (cfg : BuildConfig) (n : nat) (this : positive) (w : World)
    : Outcome World :=
  match n with
  | O => Done w
  | S n => w <- deref cfg this w ;;; derefTimes cfg n this w
  end.

(** ** Predicates used by the statements *)

(** The condition under which the collector may destroy a routine. *)
Definition deletionPrecondition (r : Routine) : bool :=
  m_isJettisoned r && N.eqb (m_refCount r) 0 && negb (m_mayBeExecuting r).

(** The back-reference of a routine is null or points to a live code block. *)
Definition backReferenceLive (w : World) (r : Routine) : Prop :=
  match m_codeBlockWithExceptionHandler r with
  | Some p => is_Some (codeBlocks w !! p)
  | None => True
  end.

(** The world after the handler cleanup of a routine [r] at [this] whose
    back-reference is the code block [cb] at [p]. *)
Definition afterHandlerCleanup (this : positive) (r : Routine) (p : positive)
    (cb : CodeBlock) (w : World) : World :=
  let i := m_exceptionHandlerCallSiteIndex r in
  store this (set_codeBlockWithExceptionHandler None r)
    (storeCodeBlock p (removeExceptionHandlerForCallSite i (removeCallSiteIndex i cb)) w).

(** Every registered address is the address of a live routine. *)
Definition registryLive (w : World) : Prop :=
  ∀ p, p ∈ m_jitStubRoutines w → is_Some (routines w !! p).

(** The address [operator new] hands out in a world. *)
Definition newAddress (w : World) : positive := fresh (dom (routines w)).

(** A routine as its constructors leave it. *)
Definition constructedRoutine (c : RoutineClass) (code : MacroAssemblerCodeRef)
    (object cb : option positive) (i : CallSiteIndex) : Routine :=
  {| dynamicClass := c; m_code := code; m_refCount := 1;
     m_mayBeExecuting := false; m_isJettisoned := false;
     m_object := object; m_codeBlockWithExceptionHandler := cb;
     m_exceptionHandlerCallSiteIndex := i |}.

(** How often an address is registered. *)
Definition occurrences (this : positive) (l : list positive) : nat :=
  length (filter (λ q, q = this) l).

(** A property of routines holds of the live routine at an address. *)
Definition holdsAt (P : Routine → Prop) (q : positive) (w : World) : Prop :=
  ∃ r, routines w !! q = Some r ∧ P r.

(** From one world to the next, a property holding of a routine still holds
    of it if the routine is still there. *)
Definition keeps (P : Routine → Prop) (w w' : World) : Prop :=
  ∀ q, holdsAt P q w → is_Some (routines w' !! q) → holdsAt P q w'.

(** ** Sample worlds *)

Definition sampleCode : MacroAssemblerCodeRef :=
  {| codeStart := 4096; codeSize := 64 |}.

Definition sampleHandler : HandlerInfo := {| handlerTarget := 99 |}.

(** An optimized code block with one handler, at call site 7. *)
Definition sampleCodeBlock : CodeBlock :=
  {| jitType := DFGJIT;
     m_exceptionHandlers := {[ 7%N := sampleHandler ]};
     dfgCommon_callSiteIndices := {[ 7%N ]} |}.

(** A world with that code block at address 5 and no routine. *)
Definition sampleWorld : World :=
  {| routines := ∅; m_jitStubRoutines := []; codeBlocks := {[ 5%positive := sampleCodeBlock ]} |}.

Definition sampleRoutine (c : RoutineClass) (n : N) (executing jettisoned : bool)
    (object cb : option positive) : Routine :=
  {| dynamicClass := c; m_code := sampleCode; m_refCount := n;
     m_mayBeExecuting := executing; m_isJettisoned := jettisoned;
     m_object := object; m_codeBlockWithExceptionHandler := cb;
     m_exceptionHandlerCallSiteIndex := {| bits := 7 |} |}.

(** [sampleWorld] with one registered routine at address 1. *)
Definition worldWith (r : Routine) : World :=
  {| routines := {[ 1%positive := r ]}; m_jitStubRoutines := [1%positive];
     codeBlocks := {[ 5%positive := sampleCodeBlock ]} |}.

(** A world with a jettisoned, unreferenced routine at address 1 and a
    referenced, executing one at address 2, both registered. *)
Definition twoRoutinesWorld : World :=
  {| routines := {[ 1%positive := sampleRoutine GCAwareJITStubRoutine_class
                                    0 false true None None;
                    2%positive := sampleRoutine GCAwareJITStubRoutine_class
                                    3 true false None None ]};
     m_jitStubRoutines := [1%positive; 2%positive];
     codeBlocks := {[ 5%positive := sampleCodeBlock ]} |}.

(** ** Further notions for sequences of operations *)

(** The routine an operation is invoked on; the factory is invoked on none. *)
Definition target (op : Operation) : option positive :=
  match op with
  | Create _ _ _ _ _ _ => None
  | Acquire this | Release this | ObserveZeroRefCount this | DeleteFromGC this
  | MarkRequiredObjects this | AboutToDie this => Some this
  end.

(** Performing a sequence of operations, stopping at the first that aborts. *)
Fixpoint performAll (cfg : BuildConfig) (ops : list Operation)
    (s : World * SlotVisitor) : Outcome (World * SlotVisitor) :=
  match ops with
  | [] => Done s
  | op :: ops => s' <- perform cfg op s ;;; performAll cfg ops s'
  end.

(** From one world to the next only the routine at [this] may differ among
    the routines, and the heap's set of stub routines is the same. *)
Definition onlyAt (this : positive) (w w' : World) : Prop :=
  m_jitStubRoutines w' = m_jitStubRoutines w
  ∧ ∀ q, q ≠ this → routines w' !! q = routines w !! q.

(** Every live GC-aware routine is in the heap's set of stub routines. *)
Definition allRegistered (w : World) : Prop :=
  ∀ q r, routines w !! q = Some r → isGCAware (dynamicClass r) = true →
         q ∈ m_jitStubRoutines w.

(** ** Basic facts *)

Lemma load_Done this w r : routines w !! this = Some r → load this w = Done r.
Proof. intros H. unfold load. by rewrite H. Qed.

Lemma load_inv this w r : load this w = Done r → routines w !! this = Some r.
Proof. unfold load. destruct (routines w !! this); congruence. Qed.

Lemma loadCodeBlock_Done p w cb :
  codeBlocks w !! p = Some cb → loadCodeBlock p w = Done cb.
Proof. intros H. unfold loadCodeBlock. by rewrite H. Qed.

Lemma bind_Done {A B} (m : Outcome A) (k : A → Outcome B) b :
  bind m k = Done b → ∃ a, m = Done a ∧ k a = Done b.
Proof. destruct m; simpl; [eauto | discriminate]. Qed.

Lemma ASSERT_true cfg : ASSERT cfg true = Done tt.
Proof. unfold ASSERT. by destruct (ASSERT_ENABLED cfg). Qed.

(** The base-class teardown, case by case. *)
Lemma GCAware_observe_jettisoned this w r :
  routines w !! this = Some r → m_isJettisoned r = true →
  GCAwareJITStubRoutine_observeZeroRefCount this w = Done (delete_this this w).
Proof.
  intros Hr Hj. unfold GCAwareJITStubRoutine_observeZeroRefCount.
  rewrite (load_Done _ _ _ Hr). simpl. by rewrite Hj.
Qed.

Lemma GCAware_observe_fresh this w r :
  routines w !! this = Some r → m_isJettisoned r = false → m_refCount r = 0%N →
  GCAwareJITStubRoutine_observeZeroRefCount this w
  = Done (store this (set_isJettisoned true r) w).
Proof.
  intros Hr Hj Hc. unfold GCAwareJITStubRoutine_observeZeroRefCount.
  rewrite (load_Done _ _ _ Hr). simpl. by rewrite Hj, Hc.
Qed.

Lemma GCAware_observe_referenced this w r :
  routines w !! this = Some r → m_isJettisoned r = false → m_refCount r ≠ 0%N →
  GCAwareJITStubRoutine_observeZeroRefCount this w = Abort ReleaseAssertionFailure.
Proof.
  intros Hr Hj Hc. unfold GCAwareJITStubRoutine_observeZeroRefCount.
  rewrite (load_Done _ _ _ Hr). simpl. rewrite Hj.
  destruct (N.eqb_spec (m_refCount r) 0); [contradiction | done].
Qed.

(** The override with a live back-reference: the cleanup, then the base. *)
Lemma WithExceptionHandler_observe_live cfg this w r p cb :
  ENABLE_DFG_JIT cfg = true →
  routines w !! this = Some r →
  m_codeBlockWithExceptionHandler r = Some p →
  codeBlocks w !! p = Some cb →
  GCAwareJITStubRoutineWithExceptionHandler_observeZeroRefCount cfg this w
  = GCAwareJITStubRoutine_observeZeroRefCount this (afterHandlerCleanup this r p cb w).
Proof.
  intros Hd Hr Hp Hcb.
  unfold GCAwareJITStubRoutineWithExceptionHandler_observeZeroRefCount.
  rewrite Hd, (load_Done _ _ _ Hr). simpl. rewrite Hp.
  rewrite (loadCodeBlock_Done _ _ _ Hcb). simpl.
  unfold loadCodeBlock at 1. simpl. rewrite lookup_insert_eq. simpl.
  unfold afterHandlerCleanup, storeCodeBlock, set_codeBlocks. simpl.
  by rewrite insert_insert_eq.
Qed.

(** The override with a null back-reference, or without the DFG JIT: only
    the base. *)
Lemma WithExceptionHandler_observe_skip cfg this w r :
  routines w !! this = Some r →
  ENABLE_DFG_JIT cfg = false ∨ m_codeBlockWithExceptionHandler r = None →
  GCAwareJITStubRoutineWithExceptionHandler_observeZeroRefCount cfg this w
  = GCAwareJITStubRoutine_observeZeroRefCount this w.
Proof.
  intros Hr H.
  unfold GCAwareJITStubRoutineWithExceptionHandler_observeZeroRefCount.
  destruct (ENABLE_DFG_JIT cfg); [| done].
  destruct H as [H | H]; [discriminate |].
  rewrite (load_Done _ _ _ Hr). simpl. by rewrite H.
Qed.

(** Whatever the override does first, the base teardown then runs on a
    world where the routine has the same count and flags. *)
Lemma WithExceptionHandler_observe_factor cfg this w r :
  routines w !! this = Some r → backReferenceLive w r →
  ∃ w1 r1,
    GCAwareJITStubRoutineWithExceptionHandler_observeZeroRefCount cfg this w
    = GCAwareJITStubRoutine_observeZeroRefCount this w1
    ∧ routines w1 !! this = Some r1
    ∧ m_isJettisoned r1 = m_isJettisoned r
    ∧ m_refCount r1 = m_refCount r
    ∧ m_mayBeExecuting r1 = m_mayBeExecuting r
    ∧ dynamicClass r1 = dynamicClass r
    ∧ (m_codeBlockWithExceptionHandler r = None →
       m_codeBlockWithExceptionHandler r1 = None)
    ∧ m_jitStubRoutines w1 = m_jitStubRoutines w
    ∧ (∀ q, q ≠ this → routines w1 !! q = routines w !! q).
Proof.
  intros Hr Hlive.
  destruct (ENABLE_DFG_JIT cfg) eqn:Hd;
    [destruct (m_codeBlockWithExceptionHandler r) as [p|] eqn:Hp |].
  - unfold backReferenceLive in Hlive. rewrite Hp in Hlive.
    destruct Hlive as [cb Hcb].
    exists (afterHandlerCleanup this r p cb w),
           (set_codeBlockWithExceptionHandler None r).
    split; [by apply WithExceptionHandler_observe_live |].
    unfold afterHandlerCleanup, store. simpl. rewrite lookup_insert_eq.
    repeat split; try done. intros q Hq. by rewrite lookup_insert_ne.
  - exists w, r. split; [apply WithExceptionHandler_observe_skip with r; auto |].
    repeat split; done.
  - exists w, r. split; [apply WithExceptionHandler_observe_skip with r; auto |].
    repeat split; done.
Qed.

(** The virtual call on a GC-aware routine reaches the base teardown. *)
Lemma observeZeroRefCount_factor cfg this w r :
  routines w !! this = Some r → isGCAware (dynamicClass r) = true →
  backReferenceLive w r →
  ∃ w1 r1,
    observeZeroRefCount cfg this w
    = GCAwareJITStubRoutine_observeZeroRefCount this w1
    ∧ routines w1 !! this = Some r1
    ∧ m_isJettisoned r1 = m_isJettisoned r
    ∧ m_refCount r1 = m_refCount r
    ∧ m_mayBeExecuting r1 = m_mayBeExecuting r
    ∧ dynamicClass r1 = dynamicClass r
    ∧ (m_codeBlockWithExceptionHandler r = None →
       m_codeBlockWithExceptionHandler r1 = None)
    ∧ m_jitStubRoutines w1 = m_jitStubRoutines w
    ∧ (∀ q, q ≠ this → routines w1 !! q = routines w !! q).
Proof.
  intros Hr Hgc Hlive. unfold observeZeroRefCount.
  rewrite (load_Done _ _ _ Hr). simpl.
  destruct (dynamicClass r) eqn:Hc; try discriminate.
  - exists w, r. rewrite Hc. repeat split; done.
  - exists w, r. rewrite Hc. repeat split; done.
  - destruct (WithExceptionHandler_observe_factor cfg this w r Hr Hlive)
      as (w1 & r1 & H). rewrite Hc in H. by exists w1, r1.
Qed.

(** [release()], case by case. *)
Lemma deref_last cfg this w r :
  routines w !! this = Some r → m_refCount r = 1%N →
  deref cfg this w = observeZeroRefCount cfg this (store this (set_refCount 0 r) w).
Proof.
  intros Hr Hc. unfold deref. rewrite (load_Done _ _ _ Hr). simpl. by rewrite Hc.
Qed.

Lemma deref_more cfg this w r :
  routines w !! this = Some r → (1 < m_refCount r)%N →
  deref cfg this w = Done (store this (set_refCount (m_refCount r - 1) r) w).
Proof.
  intros Hr Hc. unfold deref. rewrite (load_Done _ _ _ Hr). simpl.
  destruct (N.eqb_spec (m_refCount r) 0); [lia |].
  destruct (N.eqb_spec (m_refCount r - 1) 0); [lia | done].
Qed.

Lemma deref_underflow cfg this w r :
  routines w !! this = Some r → m_refCount r = 0%N →
  deref cfg this w = Abort RefCountUnderflow.
Proof.
  intros Hr Hc. unfold deref. rewrite (load_Done _ _ _ Hr). simpl. by rewrite Hc.
Qed.

(** ** Construction *)

Lemma newAddress_fresh w : routines w !! newAddress w = None.
Proof. apply not_elem_of_dom. unfold newAddress. apply is_fresh. Qed.

Lemma JITStubRoutine_ctor_new c code w this :
  JITStubRoutine_ctor this code (store this (rawRoutine c) w)
  = store this (constructedRoutine c code None None {| bits := 0 |}) w.
Proof.
  unfold JITStubRoutine_ctor, construct, store, set_routines. simpl.
  by rewrite alter_insert_eq.
Qed.

Lemma GCAwareJITStubRoutine_ctor_new c code w this :
  GCAwareJITStubRoutine_ctor this code (store this (rawRoutine c) w)
  = JITStubRoutineSet_add this
      (store this (constructedRoutine c code None None {| bits := 0 |}) w).
Proof.
  unfold GCAwareJITStubRoutine_ctor. rewrite JITStubRoutine_ctor_new.
  unfold JITStubRoutineSet_add, construct, store, set_routines. simpl.
  by rewrite !alter_insert_eq.
Qed.

Lemma Marking_ctor_new c code owner object w this :
  MarkingGCAwareJITStubRoutineWithOneObject_ctor this code owner object
    (store this (rawRoutine c) w)
  = JITStubRoutineSet_add this
      (store this (constructedRoutine c code object None {| bits := 0 |}) w).
Proof.
  unfold MarkingGCAwareJITStubRoutineWithOneObject_ctor.
  rewrite GCAwareJITStubRoutine_ctor_new.
  unfold JITStubRoutineSet_add, construct, store, set_routines. simpl.
  by rewrite !alter_insert_eq.
Qed.

(** The constructor of the routine with exception handler, on a live code
    block: it stops on the ASSERT exactly when assertions are compiled in and
    the call site has no handler. *)
Lemma WithExceptionHandler_ctor_new cfg c code p cb i w this :
  codeBlocks w !! p = Some cb →
  GCAwareJITStubRoutineWithExceptionHandler_ctor cfg this code (Some p) i
    (store this (rawRoutine c) w)
  = if ASSERT_ENABLED cfg && negb (bool_decide (is_Some (handlerForIndex cb (bits i))))
    then Abort AssertionFailure
    else Done (JITStubRoutineSet_add this
                 (store this (constructedRoutine c code None (Some p) i) w)).
Proof.
  intros Hcb. unfold GCAwareJITStubRoutineWithExceptionHandler_ctor.
  rewrite GCAwareJITStubRoutine_ctor_new.
  unfold JITStubRoutineSet_add, construct, store, set_routines. simpl.
  rewrite !alter_insert_eq. simpl.
  unfold loadCodeBlock, ASSERT. simpl. rewrite Hcb. simpl.
  destruct (ASSERT_ENABLED cfg); simpl; [| done].
  by destruct (bool_decide (is_Some (handlerForIndex cb (bits i)))).
Qed.

(** The four rows of the factory. *)
Lemma create_plain cfg code owner object cbp i w :
  createJITStubRoutine cfg code owner false object cbp i w
  = Done (newAddress w,
          store (newAddress w)
            (constructedRoutine JITStubRoutine_class code None None {| bits := 0 |}) w).
Proof.
  unfold createJITStubRoutine, operator_new. simpl.
  by rewrite JITStubRoutine_ctor_new.
Qed.

Lemma create_GCAware cfg code owner i w :
  createJITStubRoutine cfg code owner true None None i w
  = Done (newAddress w,
          JITStubRoutineSet_add (newAddress w)
            (store (newAddress w)
               (constructedRoutine GCAwareJITStubRoutine_class code None None
                  {| bits := 0 |}) w)).
Proof.
  unfold createJITStubRoutine, operator_new. simpl.
  by rewrite GCAwareJITStubRoutine_ctor_new.
Qed.

Lemma create_Marking cfg code owner o i w :
  createJITStubRoutine cfg code owner true (Some o) None i w
  = Done (newAddress w,
          JITStubRoutineSet_add (newAddress w)
            (store (newAddress w)
               (constructedRoutine MarkingGCAwareJITStubRoutineWithOneObject_class
                  code (Some o) None {| bits := 0 |}) w)).
Proof.
  unfold createJITStubRoutine, operator_new. simpl.
  by rewrite Marking_ctor_new.
Qed.

Lemma create_WithExceptionHandler cfg code owner object p cb i w :
  codeBlocks w !! p = Some cb →
  createJITStubRoutine cfg code owner true object (Some p) i w
  = if bool_decide (is_Some object) then Abort ReleaseAssertionFailure
    else if negb (isOptimizingJIT (jitType cb)) then Abort ReleaseAssertionFailure
    else if ASSERT_ENABLED cfg
              && negb (bool_decide (is_Some (handlerForIndex cb (bits i))))
    then Abort AssertionFailure
    else Done (newAddress w,
               JITStubRoutineSet_add (newAddress w)
                 (store (newAddress w)
                    (constructedRoutine GCAwareJITStubRoutineWithExceptionHandler_class
                       code None (Some p) i) w)).
Proof.
  intros Hcb. unfold createJITStubRoutine, operator_new. simpl.
  destruct (bool_decide (is_Some object)); simpl; [done |].
  rewrite (loadCodeBlock_Done _ _ _ Hcb). simpl.
  destruct (isOptimizingJIT (jitType cb)); simpl; [| done].
  rewrite (WithExceptionHandler_ctor_new cfg _ code p cb i w _ Hcb).
  by destruct (ASSERT_ENABLED cfg && _).
Qed.

Lemma create_dangling cfg code owner object p i w :
  codeBlocks w !! p = None → object = None →
  createJITStubRoutine cfg code owner true object (Some p) i w
  = Abort InvalidPointer.
Proof.
  intros Hcb ->. unfold createJITStubRoutine, loadCodeBlock. simpl.
  by rewrite Hcb.
Qed.

(** A call of the factory that returns has allocated one routine, at the
    address [operator new] chose, and registered it when it makes calls. *)
Lemma create_Done_inv cfg code owner makesCalls object cbp i w this w' :
  createJITStubRoutine cfg code owner makesCalls object cbp i w = Done (this, w') →
  this = newAddress w
  ∧ ∃ c o b j,
      isGCAware c = makesCalls
      ∧ w' = (if makesCalls
              then JITStubRoutineSet_add this
                     (store this (constructedRoutine c code o b j) w)
              else store this (constructedRoutine c code o b j) w).
Proof.
  destruct makesCalls.
  - destruct cbp as [p|].
    + destruct (codeBlocks w !! p) as [cb|] eqn:Hcb.
      * rewrite (create_WithExceptionHandler _ _ _ _ _ _ _ _ Hcb).
        repeat case_match; try discriminate.
        intros [= <- <-]. split; [done |].
        by exists GCAwareJITStubRoutineWithExceptionHandler_class, None, (Some p), i.
      * unfold createJITStubRoutine, loadCodeBlock. simpl. rewrite Hcb.
        by destruct (bool_decide (is_Some object)).
    + destruct object as [o|].
      * rewrite create_Marking. intros [= <- <-]. split; [done |].
        by exists MarkingGCAwareJITStubRoutineWithOneObject_class, (Some o), None,
                  {| bits := 0 |}.
      * rewrite create_GCAware. intros [= <- <-]. split; [done |].
        by exists GCAwareJITStubRoutine_class, None, None, {| bits := 0 |}.
  - rewrite create_plain. intros [= <- <-]. split; [done |].
    by exists JITStubRoutine_class, None, None, {| bits := 0 |}.
Qed.

Lemma removeCallSiteIndex_absent i cb :
  bits i ∉ dfgCommon_callSiteIndices
             (removeExceptionHandlerForCallSite i (removeCallSiteIndex i cb)).
Proof.
  simpl. rewrite elem_of_difference. intros [_ Hn]. apply Hn.
  by apply elem_of_singleton.
Qed.

Lemma occurrences_absent this l : this ∉ l → occurrences this l = 0.
Proof.
  unfold occurrences. induction l as [|q l IH]; [done |].
  intros Hn. apply not_elem_of_cons in Hn as [Hne Hn].
  rewrite filter_cons_False by congruence. auto.
Qed.

Lemma occurrences_add_fresh this l :
  this ∉ l → occurrences this (l ++ [this]) = 1.
Proof.
  intros Hn. pose proof (occurrences_absent this l Hn) as H0.
  unfold occurrences in *. rewrite filter_app, length_app, H0.
  by rewrite filter_cons_True.
Qed.

Lemma newAddress_unregistered w :
  registryLive w → newAddress w ∉ m_jitStubRoutines w.
Proof.
  intros Hlive Hin. apply Hlive in Hin as [r Hr].
  rewrite newAddress_fresh in Hr. discriminate.
Qed.

(** ** The teardown protocol of GCAwareJITStubRoutine *)

(** C1.  [deleteFromGC()] on a routine with [m_isJettisoned], a zero count
    and [m_mayBeExecuting] clear destroys the routine.  When one of the three
    conditions fails, the assertions of a build that compiles [ASSERT] in stop
    the process with an assertion failure.  In no build does the call come
    back with an error or with the routine still alive. *)
Theorem deleteFromGC_contract cfg this w r :
  routines w !! this = Some r →
  (deletionPrecondition r = true →
     deleteFromGC cfg this w = Done (delete_this this w)
     ∧ routines (delete_this this w) !! this = None)
  ∧ (deletionPrecondition r = false → ASSERT_ENABLED cfg = true →
     deleteFromGC cfg this w = Abort AssertionFailure)
  ∧ (∀ w', deleteFromGC cfg this w = Done w' → routines w' !! this = None).
Proof.
  intros Hr. unfold deleteFromGC, deletionPrecondition.
  rewrite (load_Done _ _ _ Hr). simpl.
  split; [intros Hp; split | split].
  - apply andb_prop in Hp as [Hp H3]. apply andb_prop in Hp as [H1 H2].
    rewrite H1, H2, H3. by rewrite !ASSERT_true.
  - unfold delete_this. simpl. apply lookup_delete_eq.
  - intros H Ha. unfold ASSERT. rewrite Ha.
    destruct (m_isJettisoned r), (m_refCount r =? 0)%N, (m_mayBeExecuting r);
      simpl in *; done.
  - intros w' H.
    apply bind_Done in H as (_ & _ & H). apply bind_Done in H as (_ & _ & H).
    apply bind_Done in H as (_ & _ & H). injection H as <-.
    unfold delete_this. simpl. apply lookup_delete_eq.
Qed.

Lemma deleteFromGC_contract_witness :
  deleteFromGC debugBuild 1
    (worldWith (sampleRoutine GCAwareJITStubRoutine_class 0 false true None None))
  = Done (delete_this 1
      (worldWith (sampleRoutine GCAwareJITStubRoutine_class 0 false true None None)))
  ∧ deleteFromGC debugBuild 1
      (worldWith (sampleRoutine GCAwareJITStubRoutine_class 0 true true None None))
    = Abort AssertionFailure.
Proof.
  split.
  - pose proof (deleteFromGC_contract debugBuild 1
      (worldWith (sampleRoutine GCAwareJITStubRoutine_class 0 false true None None))
      _ eq_refl) as (H & _ & _).
    destruct (H eq_refl) as [H1 _]. exact H1.
  - pose proof (deleteFromGC_contract debugBuild 1
      (worldWith (sampleRoutine GCAwareJITStubRoutine_class 0 true true None None))
      _ eq_refl) as (_ & H & _).
    exact (H eq_refl eq_refl).
Defined.

(** With [ASSERT] compiled out nothing checks the three conditions: the
    routine is destroyed whatever its state. *)
Lemma deleteFromGC_unchecked cfg this w r :
  routines w !! this = Some r → ASSERT_ENABLED cfg = false →
  deleteFromGC cfg this w = Done (delete_this this w).
Proof.
  intros Hr Ha. unfold deleteFromGC, ASSERT.
  rewrite (load_Done _ _ _ Hr), Ha. done.
Qed.

Example deleteFromGC_release_build :
  deleteFromGC releaseBuild 1
    (worldWith (sampleRoutine GCAwareJITStubRoutine_class 2 true false None None))
  = Done (delete_this 1
      (worldWith (sampleRoutine GCAwareJITStubRoutine_class 2 true false None None))).
Proof.
  by apply deleteFromGC_unchecked
    with (r := sampleRoutine GCAwareJITStubRoutine_class 2 true false None None).
Qed.

(** C2.  On a GC-aware routine that is not yet jettisoned and whose count
    is zero, [observeZeroRefCount()] sets [m_isJettisoned] and leaves the
    object in place, whatever [m_mayBeExecuting] is; from a count of one with
    [m_mayBeExecuting] set, one [release()] does the same. *)
Theorem observeZeroRefCount_sets_isJettisoned cfg this w r :
  routines w !! this = Some r →
  isGCAware (dynamicClass r) = true →
  m_isJettisoned r = false →
  backReferenceLive w r →
  (m_refCount r = 0%N →
     GCAwareJITStubRoutine_observeZeroRefCount this w
     = Done (store this (set_isJettisoned true r) w)
     ∧ ∃ w' r', observeZeroRefCount cfg this w = Done w'
         ∧ routines w' !! this = Some r'
         ∧ m_isJettisoned r' = true
         ∧ m_refCount r' = 0%N
         ∧ m_mayBeExecuting r' = m_mayBeExecuting r
         ∧ m_jitStubRoutines w' = m_jitStubRoutines w)
  ∧ (m_refCount r = 1%N → m_mayBeExecuting r = true →
     ∃ w' r', deref cfg this w = Done w'
         ∧ routines w' !! this = Some r'
         ∧ m_isJettisoned r' = true
         ∧ m_refCount r' = 0%N
         ∧ m_mayBeExecuting r' = true).
Proof.
  intros Hr Hgc Hj Hlive. split.
  - intros Hc. split; [by apply GCAware_observe_fresh |].
    destruct (observeZeroRefCount_factor cfg this w r Hr Hgc Hlive)
      as (w1 & r1 & -> & Hr1 & Hj1 & Hc1 & He1 & _ & _ & Hreg & _).
    rewrite (GCAware_observe_fresh this w1 r1) by congruence.
    eexists _, _. split; [reflexivity |].
    unfold store. simpl. rewrite lookup_insert_eq.
    repeat split; simpl; congruence.
  - intros Hc He. rewrite (deref_last cfg this w r Hr Hc).
    set (r0 := set_refCount 0 r). set (w0 := store this r0 w).
    assert (Hr0 : routines w0 !! this = Some r0)
      by (unfold w0, store; simpl; apply lookup_insert_eq).
    destruct (observeZeroRefCount_factor cfg this w0 r0 Hr0 Hgc Hlive)
      as (w1 & r1 & -> & Hr1 & Hj1 & Hc1 & He1 & _).
    rewrite (GCAware_observe_fresh this w1 r1) by (simpl in *; congruence).
    eexists _, _. split; [reflexivity |].
    unfold store. simpl. rewrite lookup_insert_eq.
    repeat split; simpl in *; congruence.
Qed.

Lemma observeZeroRefCount_sets_isJettisoned_witness :
  deref debugBuild 1
    (worldWith (sampleRoutine GCAwareJITStubRoutine_class 1 true false None None))
  = Done (worldWith (sampleRoutine GCAwareJITStubRoutine_class 0 true true None None)).
Proof.
  pose proof (observeZeroRefCount_sets_isJettisoned debugBuild 1
    (worldWith (sampleRoutine GCAwareJITStubRoutine_class 1 true false None None))
    _ eq_refl eq_refl eq_refl I) as [_ H].
  destruct (H eq_refl eq_refl) as (w' & r' & Hd & _).
  rewrite Hd. revert Hd. vm_compute. intros Hd. exact (eq_sym Hd).
Defined.

(** C3.  On a GC-aware routine that is already jettisoned,
    [observeZeroRefCount()] destroys the object at once; so does the
    [release()] that takes its count from one to zero. *)
Theorem observeZeroRefCount_when_jettisoned cfg this w r :
  routines w !! this = Some r →
  isGCAware (dynamicClass r) = true →
  m_isJettisoned r = true →
  backReferenceLive w r →
  GCAwareJITStubRoutine_observeZeroRefCount this w = Done (delete_this this w)
  ∧ (∃ w', observeZeroRefCount cfg this w = Done w'
       ∧ routines w' !! this = None
       ∧ m_jitStubRoutines w' = m_jitStubRoutines w)
  ∧ (m_refCount r = 1%N →
     ∃ w', deref cfg this w = Done w' ∧ routines w' !! this = None).
Proof.
  intros Hr Hgc Hj Hlive. split; [by eapply GCAware_observe_jettisoned |]. split.
  - destruct (observeZeroRefCount_factor cfg this w r Hr Hgc Hlive)
      as (w1 & r1 & -> & Hr1 & Hj1 & _ & _ & _ & _ & Hreg & _).
    rewrite (GCAware_observe_jettisoned this w1 r1) by congruence.
    eexists. split; [reflexivity |]. unfold delete_this. simpl.
    split; [apply lookup_delete_eq | done].
  - intros Hc. rewrite (deref_last cfg this w r Hr Hc).
    set (r0 := set_refCount 0 r). set (w0 := store this r0 w).
    assert (Hr0 : routines w0 !! this = Some r0)
      by (unfold w0, store; simpl; apply lookup_insert_eq).
    destruct (observeZeroRefCount_factor cfg this w0 r0 Hr0 Hgc Hlive)
      as (w1 & r1 & -> & Hr1 & Hj1 & _).
    rewrite (GCAware_observe_jettisoned this w1 r1) by (simpl in *; congruence).
    eexists. split; [reflexivity |]. unfold delete_this. simpl.
    apply lookup_delete_eq.
Qed.

Lemma observeZeroRefCount_when_jettisoned_witness :
  deref debugBuild 1
    (worldWith (sampleRoutine GCAwareJITStubRoutine_class 1 true true None None))
  = Done {| routines := ∅; m_jitStubRoutines := [1%positive];
            codeBlocks := {[ 5%positive := sampleCodeBlock ]} |}.
Proof.
  pose proof (observeZeroRefCount_when_jettisoned debugBuild 1
    (worldWith (sampleRoutine GCAwareJITStubRoutine_class 1 true true None None))
    _ eq_refl eq_refl eq_refl I) as (_ & _ & H).
  destruct (H eq_refl) as (w' & Hd & _).
  rewrite Hd. revert Hd. vm_compute. intros Hd. exact (eq_sym Hd).
Defined.

(** ** The factory and registration *)

(** C6, amended.  The rows of the factory: without calls a plain
    JITStubRoutine; with a live code block for exception handlers a failed
    RELEASE_ASSERT when an object is passed too or the code block is not
    optimized, a failed ASSERT when assertions are compiled in and the code
    block has no handler for the call site, and otherwise a routine with
    exception handler; with an object and no code block a marking routine
    holding the object; otherwise a GC-aware routine. *)
Theorem createJITStubRoutine_rows cfg code owner makesCalls object cbp i w :
  (makesCalls = false →
     ∃ this w', createJITStubRoutine cfg code owner makesCalls object cbp i w
                = Done (this, w')
       ∧ routines w' !! this
         = Some (constructedRoutine JITStubRoutine_class code None None {| bits := 0 |}))
  ∧ (makesCalls = true → ∀ p cb, cbp = Some p → codeBlocks w !! p = Some cb →
       (is_Some object ∨ isOptimizingJIT (jitType cb) = false →
          createJITStubRoutine cfg code owner makesCalls object cbp i w
          = Abort ReleaseAssertionFailure)
       ∧ (object = None → isOptimizingJIT (jitType cb) = true →
          ASSERT_ENABLED cfg = true → handlerForIndex cb (bits i) = None →
          createJITStubRoutine cfg code owner makesCalls object cbp i w
          = Abort AssertionFailure)
       ∧ (object = None → isOptimizingJIT (jitType cb) = true →
          ASSERT_ENABLED cfg = false ∨ is_Some (handlerForIndex cb (bits i)) →
          ∃ this w', createJITStubRoutine cfg code owner makesCalls object cbp i w
                     = Done (this, w')
            ∧ routines w' !! this
              = Some (constructedRoutine GCAwareJITStubRoutineWithExceptionHandler_class
                        code None (Some p) i)))
  ∧ (makesCalls = true → cbp = None → ∀ o, object = Some o →
       ∃ this w', createJITStubRoutine cfg code owner makesCalls object cbp i w
                  = Done (this, w')
         ∧ routines w' !! this
           = Some (constructedRoutine MarkingGCAwareJITStubRoutineWithOneObject_class
                     code (Some o) None {| bits := 0 |}))
  ∧ (makesCalls = true → cbp = None → object = None →
       ∃ this w', createJITStubRoutine cfg code owner makesCalls object cbp i w
                  = Done (this, w')
         ∧ routines w' !! this
           = Some (constructedRoutine GCAwareJITStubRoutine_class code None None
                     {| bits := 0 |})).
Proof.
  split; [| split; [| split]].
  - intros ->. rewrite create_plain. eexists _, _. split; [done |].
    unfold store. simpl. apply lookup_insert_eq.
  - intros -> p cb -> Hcb.
    rewrite (create_WithExceptionHandler _ _ _ _ _ _ _ _ Hcb).
    split; [| split].
    + intros [Ho | Ht].
      * by destruct Ho as [o ->].
      * rewrite Ht. simpl. by destruct (bool_decide (is_Some object)).
    + intros -> Ht Ha Hh. by rewrite Ht, Ha, Hh.
    + intros -> Ht H. rewrite Ht. simpl.
      assert (ASSERT_ENABLED cfg
              && negb (bool_decide (is_Some (handlerForIndex cb (bits i)))) = false)
        as ->.
      { destruct H as [-> | H]; [done |].
        rewrite (bool_decide_eq_true_2 _ H). simpl. apply andb_false_r. }
      eexists _, _. split; [done |]. simpl. apply lookup_insert_eq.
  - intros -> -> o ->. rewrite create_Marking. eexists _, _. split; [done |].
    simpl. apply lookup_insert_eq.
  - intros -> -> ->. rewrite create_GCAware. eexists _, _. split; [done |].
    simpl. apply lookup_insert_eq.
Qed.

Lemma createJITStubRoutine_rows_witness :
  createJITStubRoutine debugBuild sampleCode None true None (Some 5%positive)
    {| bits := 7 |} sampleWorld
  = Done (1%positive,
          worldWith (constructedRoutine GCAwareJITStubRoutineWithExceptionHandler_class
                       sampleCode None (Some 5%positive) {| bits := 7 |})).
Proof.
  pose proof (createJITStubRoutine_rows debugBuild sampleCode None true None
    (Some 5%positive) {| bits := 7 |} sampleWorld) as (_ & H & _).
  destruct (H eq_refl 5%positive sampleCodeBlock eq_refl eq_refl) as (_ & _ & H').
  destruct (H' eq_refl eq_refl (or_intror (ex_intro _ sampleHandler eq_refl)))
    as (this & w' & Hc & _).
  rewrite Hc. revert Hc. vm_compute. intros Hc. exact (eq_sym Hc).
Defined.

(** C6 as stated fails: with assertions compiled in, a call that passes an
    optimized code block and no object does not return a routine when the
    code block has no handler for the call site. *)
Lemma createJITStubRoutine_counterexample :
  codeBlocks sampleWorld !! 5%positive = Some sampleCodeBlock
  ∧ isOptimizingJIT (jitType sampleCodeBlock) = true
  ∧ createJITStubRoutine debugBuild sampleCode None true None (Some 5%positive)
      {| bits := 8 |} sampleWorld
    = Abort AssertionFailure
  ∧ ¬ ∃ res, createJITStubRoutine debugBuild sampleCode None true None
               (Some 5%positive) {| bits := 8 |} sampleWorld = Done res.
Proof.
  split; [reflexivity |]. split; [reflexivity |].
  assert (H : createJITStubRoutine debugBuild sampleCode None true None
                (Some 5%positive) {| bits := 8 |} sampleWorld
              = Abort AssertionFailure) by (vm_compute; reflexivity).
  split; [exact H |]. intros [res Hres]. rewrite H in Hres. discriminate.
Qed.

(** C8.  A call of the factory without calls leaves the heap's set of stub
    routines as it was and returns a routine that is not in it; a call that
    makes calls appends the new routine to the set, once, and so does each
    constructor of a GC-aware class. *)
Theorem registration_at_construction cfg code owner makesCalls object cbp i w :
  (makesCalls = false →
     ∃ this w', createJITStubRoutine cfg code owner makesCalls object cbp i w
                = Done (this, w')
       ∧ m_jitStubRoutines w' = m_jitStubRoutines w
       ∧ (registryLive w → this ∉ m_jitStubRoutines w'))
  ∧ (makesCalls = true → cbp = None →
     ∃ this w', createJITStubRoutine cfg code owner makesCalls object cbp i w
                = Done (this, w'))
  ∧ (makesCalls = true → ∀ this w',
       createJITStubRoutine cfg code owner makesCalls object cbp i w
       = Done (this, w') →
       (∃ r, routines w' !! this = Some r ∧ isGCAware (dynamicClass r) = true)
       ∧ m_jitStubRoutines w' = m_jitStubRoutines w ++ [this]
       ∧ (registryLive w → occurrences this (m_jitStubRoutines w') = 1))
  ∧ (∀ this w0,
       m_jitStubRoutines (GCAwareJITStubRoutine_ctor this code w0)
       = m_jitStubRoutines w0 ++ [this]
       ∧ m_jitStubRoutines
           (MarkingGCAwareJITStubRoutineWithOneObject_ctor this code owner object w0)
         = m_jitStubRoutines w0 ++ [this]
       ∧ ∀ w1, GCAwareJITStubRoutineWithExceptionHandler_ctor cfg this code cbp i w0
               = Done w1 →
               m_jitStubRoutines w1 = m_jitStubRoutines w0 ++ [this]).
Proof.
  split; [| split; [| split]].
  - intros ->. rewrite create_plain. eexists _, _. split; [done |].
    split; [done |]. simpl. apply newAddress_unregistered.
  - intros -> ->. destruct object.
    + rewrite create_Marking. by eexists _, _.
    + rewrite create_GCAware. by eexists _, _.
  - intros -> this w' H.
    apply create_Done_inv in H as (-> & c & o & b & j & Hc & ->).
    split; [| split].
    + eexists. split; [simpl; apply lookup_insert_eq | done].
    + done.
    + intros Hlive. simpl. apply occurrences_add_fresh.
      by apply newAddress_unregistered.
  - intros this w0. split; [done |]. split; [done |].
    intros w1 H. unfold GCAwareJITStubRoutineWithExceptionHandler_ctor in H.
    apply bind_Done in H as (_ & _ & H). apply bind_Done in H as (_ & _ & H).
    by injection H as <-.
Qed.

Lemma registration_at_construction_witness :
  m_jitStubRoutines
    (worldWith (sampleRoutine GCAwareJITStubRoutine_class 1 false false None None))
  = [1%positive]
  ∧ ∃ this w',
      createJITStubRoutine debugBuild sampleCode None true (Some 9%positive) None
        {| bits := 0 |}
        (worldWith (sampleRoutine GCAwareJITStubRoutine_class 1 false false None None))
      = Done (this, w')
      ∧ m_jitStubRoutines w' = [1%positive; this]
      ∧ occurrences this (m_jitStubRoutines w') = 1.
Proof.
  split; [reflexivity |].
  pose proof (registration_at_construction debugBuild sampleCode None true
    (Some 9%positive) None {| bits := 0 |}
    (worldWith (sampleRoutine GCAwareJITStubRoutine_class 1 false false None None)))
    as (_ & He & H & _).
  destruct (He eq_refl eq_refl) as (this & w' & Hc).
  exists this, w'. split; [exact Hc |].
  destruct (H eq_refl this w' Hc) as (_ & Hreg & Hocc).
  split; [exact Hreg |]. apply Hocc.
  intros p Hp. apply list_elem_of_singleton in Hp as ->. by eexists.
Defined.

(** ** The trace hook *)

(** C9.  The trace hook of a marking routine hands its one slot to the
    visitor, once, and writes nothing else; that of a GC-aware routine
    without object does nothing at all. *)
Theorem markRequiredObjectsInternal_reports this visitor w r :
  routines w !! this = Some r →
  (dynamicClass r = MarkingGCAwareJITStubRoutineWithOneObject_class →
     markRequiredObjectsInternal this visitor w
     = Done (w, SlotVisitor_append (m_object r) visitor)
     ∧ MarkingGCAwareJITStubRoutineWithOneObject_markRequiredObjectsInternal
         this visitor w
       = Done (w, SlotVisitor_append (m_object r) visitor)
     ∧ ∀ O, m_object r = Some O →
         visited (SlotVisitor_append (m_object r) visitor)
         = visited visitor ++ [Some O])
  ∧ (dynamicClass r = GCAwareJITStubRoutine_class →
     markRequiredObjectsInternal this visitor w = Done (w, visitor)
     ∧ GCAwareJITStubRoutine_markRequiredObjectsInternal this visitor w
       = Done (w, visitor)).
Proof.
  intros Hr. split; intros Hc.
  - unfold markRequiredObjectsInternal,
      MarkingGCAwareJITStubRoutineWithOneObject_markRequiredObjectsInternal.
    rewrite (load_Done _ _ _ Hr). simpl. rewrite Hc.
    rewrite ?(load_Done _ _ _ Hr). simpl.
    split; [done |]. split; [done |]. by intros O ->.
  - unfold markRequiredObjectsInternal.
    rewrite (load_Done _ _ _ Hr). simpl. by rewrite Hc.
Qed.

Lemma markRequiredObjectsInternal_reports_witness :
  markRequiredObjectsInternal 1 {| visited := [] |}
    (worldWith (sampleRoutine MarkingGCAwareJITStubRoutineWithOneObject_class
                  1 false false (Some 9%positive) None))
  = Done (worldWith (sampleRoutine MarkingGCAwareJITStubRoutineWithOneObject_class
                       1 false false (Some 9%positive) None),
          {| visited := [Some 9%positive] |}).
Proof.
  pose proof (markRequiredObjectsInternal_reports 1 {| visited := [] |}
    (worldWith (sampleRoutine MarkingGCAwareJITStubRoutineWithOneObject_class
                  1 false false (Some 9%positive) None)) _ eq_refl) as [H _].
  destruct (H eq_refl) as [H1 _]. exact H1.
Defined.

(** ** The routine with exception handler *)

(** C7.  [aboutToDie()] twice is [aboutToDie()] once; on a live routine it
    nulls the back-reference and writes nothing else. *)
Theorem aboutToDie_idempotent this w :
  (w1 <- aboutToDie this w ;;; aboutToDie this w1) = aboutToDie this w
  ∧ ∀ r, routines w !! this = Some r →
      aboutToDie this w
      = Done (store this (set_codeBlockWithExceptionHandler None r) w).
Proof.
  unfold aboutToDie, load. destruct (routines w !! this) as [r|] eqn:Hr; simpl.
  - rewrite lookup_insert_eq. simpl. split.
    + unfold store, set_routines. simpl. by rewrite insert_insert_eq.
    + by intros ? [= <-].
  - split; [done | intros; discriminate].
Qed.

Lemma aboutToDie_idempotent_witness :
  aboutToDie 1
    (worldWith (sampleRoutine GCAwareJITStubRoutineWithExceptionHandler_class
                  1 false false None (Some 5%positive)))
  = Done (worldWith (sampleRoutine GCAwareJITStubRoutineWithExceptionHandler_class
                       1 false false None None)).
Proof.
  pose proof (aboutToDie_idempotent 1
    (worldWith (sampleRoutine GCAwareJITStubRoutineWithExceptionHandler_class
                  1 false false None (Some 5%positive)))) as [_ H].
  rewrite (H _ eq_refl). vm_compute. reflexivity.
Defined.

(** ** Properties that no operation takes away

    A property of routines that survives a change of the count, the setting
    of [m_isJettisoned] and the nulling of the back-reference is kept by every
    operation of the module for as long as the routine lives. *)

Section Stable.

Variable P : Routine → Prop.
Hypothesis P_refCount : ∀ n r, P r → P (set_refCount n r).
Hypothesis P_jettison : ∀ r, P r → P (set_isJettisoned true r).
Hypothesis P_clear : ∀ r, P r → P (set_codeBlockWithExceptionHandler None r).

Lemma keeps_refl w : keeps P w w.
Proof. by intros q H _. Qed.

Lemma keeps_same_routines w w' : routines w' = routines w → keeps P w w'.
Proof. intros E q H _. unfold holdsAt. by rewrite E. Qed.

Lemma keeps_delete t w : keeps P w (delete_this t w).
Proof.
  intros q (r & Hr & HP) [r' Hr']. simpl in Hr'.
  destruct (decide (t = q)) as [-> | Hne].
  - rewrite lookup_delete_eq in Hr'. discriminate.
  - exists r. simpl. by rewrite lookup_delete_ne.
Qed.

Lemma keeps_store t r r' w :
  routines w !! t = Some r → (P r → P r') → keeps P w (store t r' w).
Proof.
  intros Ht Himp q (r0 & Hr0 & HP) _. unfold holdsAt. simpl.
  destruct (decide (t = q)) as [-> | Hne].
  - rewrite lookup_insert_eq. exists r'. split; [done |].
    apply Himp. congruence.
  - rewrite lookup_insert_ne by done. by exists r0.
Qed.

Lemma keeps_store_over t r r' w w1 :
  routines w1 = routines w →
  routines w !! t = Some r → (P r → P r') → keeps P w (store t r' w1).
Proof.
  intros E Ht Himp q (r0 & Hr0 & HP) _. unfold holdsAt. simpl. rewrite E.
  destruct (decide (t = q)) as [-> | Hne].
  - rewrite lookup_insert_eq. exists r'. split; [done |].
    apply Himp. congruence.
  - rewrite lookup_insert_ne by done. by exists r0.
Qed.

Lemma keeps_new t r w : routines w !! t = None → keeps P w (store t r w).
Proof.
  intros Ht q (r0 & Hr0 & HP) _. unfold holdsAt. simpl.
  destruct (decide (t = q)) as [-> | Hne]; [congruence |].
  rewrite lookup_insert_ne by done. by exists r0.
Qed.

Lemma keeps_trans w w1 w2 :
  keeps P w w1 → keeps P w1 w2 →
  (∀ q, is_Some (routines w !! q) → is_Some (routines w1 !! q)) →
  keeps P w w2.
Proof.
  intros H1 H2 Halive q Hq Hq2. apply H2; [| done].
  apply H1; [done |]. apply Halive. destruct Hq as (r & Hr & _). by eexists.
Qed.

Lemma alive_store t r w q :
  is_Some (routines w !! q) → is_Some (routines (store t r w) !! q).
Proof. intros H. simpl. apply lookup_insert_is_Some'. by right. Qed.

Lemma keeps_GCAware_observeZeroRefCount this w w' :
  GCAwareJITStubRoutine_observeZeroRefCount this w = Done w' → keeps P w w'.
Proof.
  unfold GCAwareJITStubRoutine_observeZeroRefCount. intros H.
  apply bind_Done in H as (r & Hr%load_inv & H).
  destruct (m_isJettisoned r).
  - injection H as <-. apply keeps_delete.
  - apply bind_Done in H as (_ & _ & H). injection H as <-.
    eapply keeps_store; eauto.
Qed.

Lemma keeps_WithExceptionHandler_observeZeroRefCount cfg this w w' :
  GCAwareJITStubRoutineWithExceptionHandler_observeZeroRefCount cfg this w = Done w' →
  keeps P w w'.
Proof.
  unfold GCAwareJITStubRoutineWithExceptionHandler_observeZeroRefCount. intros H.
  apply bind_Done in H as (w1 & H1 & H2).
  apply keeps_GCAware_observeZeroRefCount in H2.
  destruct (ENABLE_DFG_JIT cfg); [| by injection H1 as <-].
  apply bind_Done in H1 as (r & Hr%load_inv & H1).
  destruct (m_codeBlockWithExceptionHandler r) as [p|]; [| by injection H1 as <-].
  apply bind_Done in H1 as (cb & _ & H1). apply bind_Done in H1 as (cb' & _ & H1).
  injection H1 as <-.
  eapply keeps_trans; [| exact H2 |].
  - eapply keeps_store_over; [done | exact Hr | apply P_clear].
  - intros q Hq. simpl. apply lookup_insert_is_Some'. by right.
Qed.

Lemma keeps_observeZeroRefCount cfg this w w' :
  observeZeroRefCount cfg this w = Done w' → keeps P w w'.
Proof.
  unfold observeZeroRefCount. intros H.
  apply bind_Done in H as (r & Hr%load_inv & H).
  destruct (dynamicClass r).
  - apply bind_Done in H as (_ & _ & H). injection H as <-. apply keeps_delete.
  - by apply keeps_GCAware_observeZeroRefCount in H.
  - by apply keeps_GCAware_observeZeroRefCount in H.
  - by apply keeps_WithExceptionHandler_observeZeroRefCount in H.
Qed.

Lemma keeps_deref cfg this w w' : deref cfg this w = Done w' → keeps P w w'.
Proof.
  unfold deref. intros H. apply bind_Done in H as (r & Hr%load_inv & H).
  destruct (m_refCount r =? 0)%N; [discriminate |].
  assert (Hs : keeps P w (store this (set_refCount (m_refCount r - 1) r) w))
    by (eapply keeps_store; eauto).
  destruct (m_refCount r - 1 =? 0)%N.
  - apply keeps_observeZeroRefCount in H.
    eapply keeps_trans; [exact Hs | exact H |].
    intros q Hq. by apply alive_store.
  - by injection H as <-.
Qed.

Lemma keeps_create cfg code owner makesCalls object cbp i w this w' :
  createJITStubRoutine cfg code owner makesCalls object cbp i w = Done (this, w') →
  keeps P w w'.
Proof.
  intros H. apply create_Done_inv in H as (-> & c & o & b & j & _ & ->).
  destruct makesCalls.
  - eapply keeps_trans; [apply keeps_new, newAddress_fresh | | ].
    + by apply keeps_same_routines.
    + intros q Hq. by apply alive_store.
  - apply keeps_new, newAddress_fresh.
Qed.

(** One operation. *)
Lemma keeps_perform cfg op s s' :
  perform cfg op s = Done s' → keeps P (fst s) (fst s').
Proof.
  destruct s as [w v]. destruct op; simpl; intros H.
  - apply bind_Done in H as ([this w'] & Hc & H). injection H as <-.
    by apply keeps_create in Hc.
  - apply bind_Done in H as (w' & Hc & H). injection H as <-.
    unfold ref in Hc. apply bind_Done in Hc as (r & Hr%load_inv & Hc).
    injection Hc as <-. simpl. eapply keeps_store; eauto.
  - apply bind_Done in H as (w' & Hc & H). injection H as <-.
    by apply keeps_deref in Hc.
  - apply bind_Done in H as (w' & Hc & H). injection H as <-.
    by apply keeps_observeZeroRefCount in Hc.
  - apply bind_Done in H as (w' & Hc & H). injection H as <-.
    unfold deleteFromGC in Hc. apply bind_Done in Hc as (r & _ & Hc).
    apply bind_Done in Hc as (_ & _ & Hc). apply bind_Done in Hc as (_ & _ & Hc).
    apply bind_Done in Hc as (_ & _ & Hc). injection Hc as <-. apply keeps_delete.
  - unfold markRequiredObjectsInternal in H.
    apply bind_Done in H as (r & _ & H).
    destruct (dynamicClass r); try discriminate.
    + injection H as <-. apply keeps_refl.
    + apply bind_Done in H as (r' & _ & H). injection H as <-. apply keeps_refl.
    + injection H as <-. apply keeps_refl.
  - apply bind_Done in H as (w' & Hc & H). injection H as <-.
    unfold aboutToDie in Hc. apply bind_Done in Hc as (r & Hr%load_inv & Hc).
    injection Hc as <-. simpl. eapply keeps_store; eauto.
Qed.

(** Any run during which the routine lives. *)
Lemma holdsAt_performWhileAlive cfg this ops : ∀ s s',
  holdsAt P this (fst s) →
  performWhileAlive cfg this ops s = Some s' →
  holdsAt P this (fst s').
Proof.
  induction ops as [|op ops IH]; intros s s' Hs H; simpl in H.
  - by injection H as <-.
  - destruct (perform cfg op s) as [s1|] eqn:Hop; [| discriminate].
    destruct (routines (fst s1) !! this) as [r1|] eqn:Hr1; [| discriminate].
    apply (IH s1 s'); [| done].
    apply (keeps_perform cfg op s s1 Hop); [done | by eexists].
Qed.

End Stable.

(** ** The code blocks during teardown *)

Lemma GCAware_observe_codeBlocks this w w' :
  GCAwareJITStubRoutine_observeZeroRefCount this w = Done w' →
  codeBlocks w' = codeBlocks w.
Proof.
  unfold GCAwareJITStubRoutine_observeZeroRefCount. intros H.
  apply bind_Done in H as (r & _ & H). destruct (m_isJettisoned r).
  - by injection H as <-.
  - apply bind_Done in H as (_ & _ & H). by injection H as <-.
Qed.

Lemma observeZeroRefCount_null_codeBlocks cfg this w r w' :
  routines w !! this = Some r → m_codeBlockWithExceptionHandler r = None →
  observeZeroRefCount cfg this w = Done w' → codeBlocks w' = codeBlocks w.
Proof.
  intros Hr Hn. unfold observeZeroRefCount. rewrite (load_Done _ _ _ Hr). simpl.
  destruct (dynamicClass r).
  - intros H. apply bind_Done in H as (_ & _ & H). by injection H as <-.
  - apply GCAware_observe_codeBlocks.
  - apply GCAware_observe_codeBlocks.
  - rewrite (WithExceptionHandler_observe_skip cfg this w r Hr (or_intror Hn)).
    apply GCAware_observe_codeBlocks.
Qed.

Lemma deref_null_codeBlocks cfg this w r w' :
  routines w !! this = Some r → m_codeBlockWithExceptionHandler r = None →
  deref cfg this w = Done w' → codeBlocks w' = codeBlocks w.
Proof.
  intros Hr Hn. unfold deref. rewrite (load_Done _ _ _ Hr). simpl.
  destruct (m_refCount r =? 0)%N; [discriminate |].
  destruct (m_refCount r - 1 =? 0)%N.
  - intros H.
    eapply (observeZeroRefCount_null_codeBlocks cfg this _
              (set_refCount (m_refCount r - 1) r)) in H; [done | | done].
    simpl. apply lookup_insert_eq.
  - by intros [= <-].
Qed.

(** The last release of a routine with exception handler that is not yet
    jettisoned, under the DFG JIT: the cleanup, then the flag. *)
Lemma deref_last_cleans cfg this w r p cb :
  ENABLE_DFG_JIT cfg = true →
  routines w !! this = Some r →
  dynamicClass r = GCAwareJITStubRoutineWithExceptionHandler_class →
  m_isJettisoned r = false →
  m_codeBlockWithExceptionHandler r = Some p →
  codeBlocks w !! p = Some cb →
  m_refCount r = 1%N →
  deref cfg this w
  = Done (store this
            (set_isJettisoned true
               (set_codeBlockWithExceptionHandler None (set_refCount 0 r)))
            (storeCodeBlock p
               (removeExceptionHandlerForCallSite (m_exceptionHandlerCallSiteIndex r)
                  (removeCallSiteIndex (m_exceptionHandlerCallSiteIndex r) cb)) w)).
Proof.
  intros Hd Hr Hc Hj Hp Hcb Hn.
  rewrite (deref_last cfg this w r Hr Hn).
  set (r0 := set_refCount 0 r). set (w0 := store this r0 w).
  assert (Hr0 : routines w0 !! this = Some r0) by (simpl; apply lookup_insert_eq).
  unfold observeZeroRefCount. rewrite (load_Done _ _ _ Hr0). simpl. rewrite Hc.
  rewrite (WithExceptionHandler_observe_live cfg this w0 r0 p cb Hd Hr0 Hp Hcb).
  rewrite (GCAware_observe_fresh this _ (set_codeBlockWithExceptionHandler None r0));
    [| simpl; apply lookup_insert_eq | done | done].
  unfold afterHandlerCleanup, store, storeCodeBlock, set_routines, set_codeBlocks.
  simpl. by rewrite !insert_insert_eq.
Qed.

Lemma derefTimes_cleans cfg this p :
  ENABLE_DFG_JIT cfg = true →
  ∀ n w r cb,
    routines w !! this = Some r →
    dynamicClass r = GCAwareJITStubRoutineWithExceptionHandler_class →
    m_isJettisoned r = false →
    m_codeBlockWithExceptionHandler r = Some p →
    codeBlocks w !! p = Some cb →
    m_refCount r = N.of_nat (S n) →
    ∃ w', derefTimes cfg (S n) this w = Done w'
      ∧ codeBlocks w' !! p
        = Some (removeExceptionHandlerForCallSite (m_exceptionHandlerCallSiteIndex r)
                  (removeCallSiteIndex (m_exceptionHandlerCallSiteIndex r) cb))
      ∧ ∃ r', routines w' !! this = Some r'
          ∧ m_refCount r' = 0%N
          ∧ m_isJettisoned r' = true
          ∧ m_codeBlockWithExceptionHandler r' = None.
Proof.
  intros Hd. induction n as [|n IH]; intros w r cb Hr Hc Hj Hp Hcb Hn.
  - simpl. rewrite (deref_last_cleans cfg this w r p cb) by done. simpl.
    eexists. split; [reflexivity |]. simpl. rewrite !lookup_insert_eq.
    split; [done |]. by eexists.
  - change (derefTimes cfg (S (S n)) this w)
      with (bind (deref cfg this w) (λ w1, derefTimes cfg (S n) this w1)).
    rewrite (deref_more cfg this w r Hr) by lia. simpl bind.
    apply (IH _ (set_refCount (m_refCount r - 1) r) cb); try done.
    + simpl. apply lookup_insert_eq.
    + simpl. lia.
Qed.

(** C5.  Under the DFG JIT, when the count of a routine with exception
    handler reaches zero while its back-reference is live,
    [observeZeroRefCount()] is the base teardown run after the cleanup: the
    call-site index is out of the code block's metadata, the handler of the
    call site is out of its handler table and the back-reference is null.
    Releasing such a routine until its count is zero, or a routine fresh from
    the factory once, leaves the code block without the handler. *)
Theorem observeZeroRefCount_removes_handler cfg :
  ENABLE_DFG_JIT cfg = true →
  (∀ this w r p cb,
     routines w !! this = Some r →
     dynamicClass r = GCAwareJITStubRoutineWithExceptionHandler_class →
     m_codeBlockWithExceptionHandler r = Some p →
     codeBlocks w !! p = Some cb →
     let i := m_exceptionHandlerCallSiteIndex r in
     let cb' := removeExceptionHandlerForCallSite i (removeCallSiteIndex i cb) in
     handlerForIndex cb' (bits i) = None
     ∧ (bits i ∉ dfgCommon_callSiteIndices cb')
     ∧ observeZeroRefCount cfg this w
       = GCAwareJITStubRoutine_observeZeroRefCount this
           (afterHandlerCleanup this r p cb w)
     ∧ (m_isJettisoned r = false → m_refCount r = 0%N →
        observeZeroRefCount cfg this w
        = Done (store this
                  (set_isJettisoned true (set_codeBlockWithExceptionHandler None r))
                  (storeCodeBlock p cb' w)))
     ∧ (m_isJettisoned r = true →
        observeZeroRefCount cfg this w
        = Done (delete_this this (storeCodeBlock p cb' w)))
     ∧ (m_isJettisoned r = false → ∀ n, m_refCount r = N.of_nat (S n) →
        ∃ w', derefTimes cfg (S n) this w = Done w'
          ∧ codeBlocks w' !! p = Some cb'))
  ∧ (∀ code owner p cb i H w,
       codeBlocks w !! p = Some cb →
       isOptimizingJIT (jitType cb) = true →
       handlerForIndex cb (bits i) = Some H →
       ∃ this w1 w2 cb2,
         createJITStubRoutine cfg code owner true None (Some p) i w = Done (this, w1)
         ∧ deref cfg this w1 = Done w2
         ∧ codeBlocks w2 !! p = Some cb2
         ∧ handlerForIndex cb2 (bits i) = None
         ∧ bits i ∉ dfgCommon_callSiteIndices cb2).
Proof.
  intros Hd. split.
  - intros this w r p cb Hr Hc Hp Hcb i cb'.
    assert (Hfac : observeZeroRefCount cfg this w
                   = GCAwareJITStubRoutine_observeZeroRefCount this
                       (afterHandlerCleanup this r p cb w)).
    { unfold observeZeroRefCount. rewrite (load_Done _ _ _ Hr). simpl. rewrite Hc.
      by apply WithExceptionHandler_observe_live. }
    split; [apply lookup_delete_eq |]. split; [apply removeCallSiteIndex_absent |].
    split; [exact Hfac |]. split; [| split].
    + intros Hj Hn. rewrite Hfac.
      rewrite (GCAware_observe_fresh this _ (set_codeBlockWithExceptionHandler None r));
        [| simpl; apply lookup_insert_eq | done | done].
      unfold afterHandlerCleanup, store, set_routines. simpl.
      by rewrite insert_insert_eq.
    + intros Hj. rewrite Hfac.
      rewrite (GCAware_observe_jettisoned this _
                 (set_codeBlockWithExceptionHandler None r));
        [| simpl; apply lookup_insert_eq | done].
      unfold afterHandlerCleanup, delete_this, store, set_routines. simpl.
      by rewrite delete_insert_eq.
    + intros Hj n Hn.
      destruct (derefTimes_cleans cfg this p Hd n w r cb Hr Hc Hj Hp Hcb Hn)
        as (w' & Hrun & Hcb' & _).
      by exists w'.
  - intros code owner p cb i H w Hcb Ht Hh.
    rewrite (create_WithExceptionHandler _ _ _ _ _ _ _ _ Hcb). simpl. rewrite Ht.
    simpl. rewrite Hh. rewrite bool_decide_eq_true_2 by (by eexists).
    rewrite andb_false_r.
    eexists _, _, _, _. split; [reflexivity |].
    rewrite (deref_last_cleans cfg _ _
               (constructedRoutine GCAwareJITStubRoutineWithExceptionHandler_class
                  code None (Some p) i) p cb); try done;
      [| simpl; apply lookup_insert_eq].
    split; [reflexivity |]. simpl. rewrite lookup_insert_eq.
    split; [reflexivity |]. split; [apply lookup_delete_eq | apply removeCallSiteIndex_absent].
Qed.

Lemma observeZeroRefCount_removes_handler_witness :
  handlerForIndex sampleCodeBlock 7 = Some sampleHandler
  ∧ ∃ this w1 w2 cb2,
      createJITStubRoutine debugBuild sampleCode None true None (Some 5%positive)
        {| bits := 7 |} sampleWorld = Done (this, w1)
      ∧ deref debugBuild this w1 = Done w2
      ∧ codeBlocks w2 !! 5%positive = Some cb2
      ∧ handlerForIndex cb2 7 = None
      ∧ 7%N ∉ dfgCommon_callSiteIndices cb2.
Proof.
  split; [reflexivity |].
  pose proof (observeZeroRefCount_removes_handler debugBuild eq_refl) as [_ H].
  exact (H sampleCode None 5%positive sampleCodeBlock {| bits := 7 |} sampleHandler
           sampleWorld eq_refl eq_refl eq_refl).
Defined.

(** C10.  Once [aboutToDie()] has run on a routine, and whatever is done
    while the routine lives, [observeZeroRefCount()] of the routine with
    exception handler is the base teardown alone: it, and the [release()]
    leading to it, leave every code block as it was. *)
Theorem observeZeroRefCount_after_aboutToDie cfg this w w1 :
  aboutToDie this w = Done w1 →
  ∀ ops v s2,
    performWhileAlive cfg this ops (w1, v) = Some s2 →
    GCAwareJITStubRoutineWithExceptionHandler_observeZeroRefCount cfg this (fst s2)
    = GCAwareJITStubRoutine_observeZeroRefCount this (fst s2)
    ∧ (∀ w3, GCAwareJITStubRoutineWithExceptionHandler_observeZeroRefCount
               cfg this (fst s2) = Done w3 →
             codeBlocks w3 = codeBlocks (fst s2))
    ∧ (∀ w3, deref cfg this (fst s2) = Done w3 → codeBlocks w3 = codeBlocks (fst s2))
    ∧ ∃ r2, routines (fst s2) !! this = Some r2
        ∧ m_codeBlockWithExceptionHandler r2 = None
        ∧ (m_isJettisoned r2 = true ∨ m_refCount r2 = 0%N →
           ∃ w3, GCAwareJITStubRoutineWithExceptionHandler_observeZeroRefCount
                   cfg this (fst s2) = Done w3).
Proof.
  intros Hdie ops v s2 Hrun.
  unfold aboutToDie in Hdie. apply bind_Done in Hdie as (r & Hr%load_inv & Hdie).
  injection Hdie as <-.
  assert (Hnull : holdsAt (λ r, m_codeBlockWithExceptionHandler r = None)
                    this (fst s2)).
  { refine (holdsAt_performWhileAlive _ _ _ _ cfg this ops _ s2 _ Hrun);
      [done | done | done |].
    eexists. split; [simpl; apply lookup_insert_eq | done]. }
  destruct Hnull as (r2 & Hr2 & Hn).
  pose proof (WithExceptionHandler_observe_skip cfg this (fst s2) r2 Hr2 (or_intror Hn))
    as Hskip.
  split; [exact Hskip |]. split; [| split].
  - intros w3. rewrite Hskip. apply GCAware_observe_codeBlocks.
  - intros w3. by apply (deref_null_codeBlocks cfg this (fst s2) r2).
  - exists r2. split; [done |]. split; [done |]. rewrite Hskip.
    destruct (m_isJettisoned r2) eqn:Hj.
    + intros _. rewrite (GCAware_observe_jettisoned this _ r2) by done. by eexists.
    + intros [? | Hz]; [discriminate |].
      rewrite (GCAware_observe_fresh this _ r2) by done. by eexists.
Qed.

Lemma observeZeroRefCount_after_aboutToDie_witness :
  aboutToDie 1
    (worldWith (sampleRoutine GCAwareJITStubRoutineWithExceptionHandler_class
                  0 false false None (Some 5%positive)))
  = Done (worldWith (sampleRoutine GCAwareJITStubRoutineWithExceptionHandler_class
                       0 false false None None))
  ∧ GCAwareJITStubRoutineWithExceptionHandler_observeZeroRefCount debugBuild 1
      (worldWith (sampleRoutine GCAwareJITStubRoutineWithExceptionHandler_class
                    0 false false None None))
    = GCAwareJITStubRoutine_observeZeroRefCount 1
        (worldWith (sampleRoutine GCAwareJITStubRoutineWithExceptionHandler_class
                      0 false false None None)).
Proof.
  assert (Hdie : aboutToDie 1
    (worldWith (sampleRoutine GCAwareJITStubRoutineWithExceptionHandler_class
                  0 false false None (Some 5%positive)))
  = Done (worldWith (sampleRoutine GCAwareJITStubRoutineWithExceptionHandler_class
                       0 false false None None))) by (vm_compute; reflexivity).
  split; [exact Hdie |].
  pose proof (observeZeroRefCount_after_aboutToDie debugBuild 1 _ _ Hdie
                [] {| visited := [] |} _ eq_refl) as (H & _).
  exact H.
Defined.

(** ** The flag [m_isJettisoned] *)

(** C4.  [m_isJettisoned] is false in every routine the factory returns and
    after the constructor of a GC-aware routine; an operation that finds it
    set in a routine leaves it set as long as the routine is there, and so
    does every sequence of operations during which the routine lives. *)
Theorem isJettisoned_monotonic cfg :
  (∀ code owner makesCalls object cbp i w this w',
     createJITStubRoutine cfg code owner makesCalls object cbp i w = Done (this, w') →
     ∃ r, routines w' !! this = Some r ∧ m_isJettisoned r = false)
  ∧ (∀ this code w r, routines w !! this = Some r →
     ∃ r', routines (GCAwareJITStubRoutine_ctor this code w) !! this = Some r'
           ∧ m_isJettisoned r' = false)
  ∧ (∀ op s s' this r r',
     perform cfg op s = Done s' →
     routines (fst s) !! this = Some r → m_isJettisoned r = true →
     routines (fst s') !! this = Some r' → m_isJettisoned r' = true)
  ∧ (∀ this ops s s' r,
     routines (fst s) !! this = Some r → m_isJettisoned r = true →
     performWhileAlive cfg this ops s = Some s' →
     ∃ r', routines (fst s') !! this = Some r' ∧ m_isJettisoned r' = true).
Proof.
  split; [| split; [| split]].
  - intros code owner makesCalls object cbp i w this w' H.
    apply create_Done_inv in H as (-> & c & o & b & j & _ & ->).
    eexists. destruct makesCalls; simpl; (split; [apply lookup_insert_eq | done]).
  - intros this code w r Hr. unfold GCAwareJITStubRoutine_ctor, JITStubRoutine_ctor.
    simpl. rewrite !lookup_alter_eq, Hr. simpl. by eexists.
  - intros op s s' this r r' Hop Hr Hj Hr'.
    destruct (keeps_perform (λ r, m_isJettisoned r = true)
                ltac:(done) ltac:(done) ltac:(done) cfg op s s' Hop this)
      as (r2 & Hr2 & Hj2); [by exists r | by eexists | congruence].
  - intros this ops s s' r Hr Hj Hrun.
    apply (holdsAt_performWhileAlive (λ r, m_isJettisoned r = true)
             ltac:(done) ltac:(done) ltac:(done) cfg this ops s s');
      [by exists r | done].
Qed.

Lemma isJettisoned_monotonic_witness :
  performWhileAlive debugBuild 1
    [Acquire 1%positive; MarkRequiredObjects 1%positive; AboutToDie 1%positive;
     Release 1%positive]
    (worldWith (sampleRoutine GCAwareJITStubRoutineWithExceptionHandler_class
                  1 false true None (Some 5%positive)),
     {| visited := [] |})
  = Some (worldWith (sampleRoutine GCAwareJITStubRoutineWithExceptionHandler_class
                       1 false true None None),
          {| visited := [] |})
  ∧ ∃ r', routines
            (worldWith (sampleRoutine GCAwareJITStubRoutineWithExceptionHandler_class
                          1 false true None None)) !! 1%positive = Some r'
          ∧ m_isJettisoned r' = true.
Proof.
  assert (Hrun : performWhileAlive debugBuild 1
    [Acquire 1%positive; MarkRequiredObjects 1%positive; AboutToDie 1%positive;
     Release 1%positive]
    (worldWith (sampleRoutine GCAwareJITStubRoutineWithExceptionHandler_class
                  1 false true None (Some 5%positive)),
     {| visited := [] |})
  = Some (worldWith (sampleRoutine GCAwareJITStubRoutineWithExceptionHandler_class
                       1 false true None None),
          {| visited := [] |})) by (vm_compute; reflexivity).
  split; [exact Hrun |].
  pose proof (isJettisoned_monotonic debugBuild) as (_ & _ & _ & H).
  refine (H 1%positive _ _ _ _ _ _ Hrun); reflexivity.
Defined.

(** ** Scenarios *)

(** X9.  A marking routine fresh from the factory, traced once: the visitor
    is handed the object the factory was given, once, and nothing else, and
    the world is as it was. *)
Lemma trace_after_create cfg code owner O i w visitor :
  ∃ this w1,
    createJITStubRoutine cfg code owner true (Some O) None i w = Done (this, w1)
    ∧ markRequiredObjectsInternal this visitor w1
      = Done (w1, {| visited := visited visitor ++ [Some O] |}).
Proof.
  rewrite create_Marking. eexists _, _. split; [reflexivity |].
  unfold markRequiredObjectsInternal, load. simpl. rewrite lookup_insert_eq. simpl.
  unfold MarkingGCAwareJITStubRoutineWithOneObject_markRequiredObjectsInternal, load.
  simpl. by rewrite lookup_insert_eq.
Qed.

(** X10.  A GC-aware routine fresh from the factory, released once, is
    still there and meets the three conditions of [deleteFromGC()];
    [deleteFromGC()] then destroys it, in every build. *)
Lemma release_then_deleteFromGC cfg code owner i w :
  ∃ this w1 w2 w3,
    createJITStubRoutine cfg code owner true None None i w = Done (this, w1)
    ∧ deref cfg this w1 = Done w2
    ∧ (∃ r, routines w2 !! this = Some r ∧ deletionPrecondition r = true)
    ∧ deleteFromGC cfg this w2 = Done w3
    ∧ routines w3 !! this = None.
Proof.
  rewrite create_GCAware. eexists _, _, _, _. split; [reflexivity |].
  set (r := constructedRoutine GCAwareJITStubRoutine_class code None None {| bits := 0 |}).
  set (w1 := JITStubRoutineSet_add _ _).
  assert (Hr : routines w1 !! newAddress w = Some r) by (simpl; apply lookup_insert_eq).
  rewrite (deref_last cfg _ w1 r Hr eq_refl).
  unfold observeZeroRefCount, load. simpl. rewrite lookup_insert_eq. simpl.
  rewrite (GCAware_observe_fresh _ _ (set_refCount 0 r));
    [| simpl; apply lookup_insert_eq | done | done].
  split; [reflexivity |]. split.
  - eexists. split; [simpl; apply lookup_insert_eq | done].
  - unfold deleteFromGC, load. simpl. rewrite lookup_insert_eq. simpl.
    rewrite !ASSERT_true. simpl. split; [reflexivity |]. simpl.
    apply lookup_delete_eq.
Qed.

(** ** What an operation leaves alone *)

Lemma onlyAt_refl this w : onlyAt this w w.
Proof. by split. Qed.

Lemma onlyAt_trans this w w1 w2 :
  onlyAt this w w1 → onlyAt this w1 w2 → onlyAt this w w2.
Proof.
  intros [E1 H1] [E2 H2]. split; [congruence |].
  intros q Hq. rewrite H2, H1; done.
Qed.

Lemma onlyAt_store this r w : onlyAt this w (store this r w).
Proof. split; [done |]. intros q Hq. simpl. by rewrite lookup_insert_ne. Qed.

Lemma onlyAt_delete this w : onlyAt this w (delete_this this w).
Proof. split; [done |]. intros q Hq. simpl. by rewrite lookup_delete_ne. Qed.

Lemma onlyAt_GCAware_observeZeroRefCount this w w' :
  GCAwareJITStubRoutine_observeZeroRefCount this w = Done w' → onlyAt this w w'.
Proof.
  unfold GCAwareJITStubRoutine_observeZeroRefCount. intros H.
  apply bind_Done in H as (r & _ & H). destruct (m_isJettisoned r).
  - injection H as <-. apply onlyAt_delete.
  - apply bind_Done in H as (u & _ & H). injection H as <-. apply onlyAt_store.
Qed.

Lemma onlyAt_WithExceptionHandler_observeZeroRefCount cfg this w w' :
  GCAwareJITStubRoutineWithExceptionHandler_observeZeroRefCount cfg this w = Done w' →
  onlyAt this w w'.
Proof.
  unfold GCAwareJITStubRoutineWithExceptionHandler_observeZeroRefCount. intros H.
  apply bind_Done in H as (w1 & H1 & H2).
  apply onlyAt_GCAware_observeZeroRefCount in H2.
  destruct (ENABLE_DFG_JIT cfg); [| by injection H1 as <-].
  apply bind_Done in H1 as (r & _ & H1).
  destruct (m_codeBlockWithExceptionHandler r) as [p|]; [| by injection H1 as <-].
  apply bind_Done in H1 as (cb & _ & H1). apply bind_Done in H1 as (cb' & _ & H1).
  injection H1 as <-.
  eapply onlyAt_trans; [| exact H2].
  split; [done |]. intros q Hq. simpl. by rewrite lookup_insert_ne.
Qed.

Lemma onlyAt_observeZeroRefCount cfg this w w' :
  observeZeroRefCount cfg this w = Done w' → onlyAt this w w'.
Proof.
  unfold observeZeroRefCount. intros H. apply bind_Done in H as (r & _ & H).
  destruct (dynamicClass r).
  - apply bind_Done in H as (r' & _ & H). injection H as <-. apply onlyAt_delete.
  - by apply onlyAt_GCAware_observeZeroRefCount.
  - by apply onlyAt_GCAware_observeZeroRefCount.
  - by apply onlyAt_WithExceptionHandler_observeZeroRefCount in H.
Qed.

Lemma onlyAt_deref cfg this w w' : deref cfg this w = Done w' → onlyAt this w w'.
Proof.
  unfold deref. intros H. apply bind_Done in H as (r & _ & H).
  destruct (m_refCount r =? 0)%N; [discriminate |].
  destruct (m_refCount r - 1 =? 0)%N.
  - apply onlyAt_observeZeroRefCount in H.
    eapply onlyAt_trans; [apply onlyAt_store | exact H].
  - injection H as <-. apply onlyAt_store.
Qed.

(** An operation invoked on a routine finds the routine alive, or aborts. *)
Lemma perform_target_alive cfg op s s' this :
  target op = Some this → perform cfg op s = Done s' →
  is_Some (routines (fst s) !! this).
Proof.
  destruct s as [w v].
  assert (Hload : ∀ {A} (k : Routine → Outcome A) x,
            bind (load this w) k = Done x → is_Some (routines w !! this)).
  { intros A k x H. apply bind_Done in H as (r & Hr%load_inv & _). by eexists. }
  destruct op; simpl; intros [= ->] H.
  - apply bind_Done in H as (w' & H & _). revert H. unfold ref. apply Hload.
  - apply bind_Done in H as (w' & H & _). revert H. unfold deref. apply Hload.
  - apply bind_Done in H as (w' & H & _). revert H. unfold observeZeroRefCount.
    apply Hload.
  - apply bind_Done in H as (w' & H & _). revert H. unfold deleteFromGC.
    apply Hload.
  - revert H. unfold markRequiredObjectsInternal. apply Hload.
  - apply bind_Done in H as (w' & H & _). revert H. unfold aboutToDie.
    apply Hload.
Qed.

Lemma perform_onlyAt cfg op s s' this :
  target op = Some this → perform cfg op s = Done s' →
  onlyAt this (fst s) (fst s').
Proof.
  destruct s as [w v]. destruct op; simpl; intros [= ->] H.
  - apply bind_Done in H as (w' & Hc & H). injection H as <-.
    unfold ref in Hc. apply bind_Done in Hc as (r & _ & Hc).
    injection Hc as <-. apply onlyAt_store.
  - apply bind_Done in H as (w' & Hc & H). injection H as <-.
    by apply onlyAt_deref in Hc.
  - apply bind_Done in H as (w' & Hc & H). injection H as <-.
    by apply onlyAt_observeZeroRefCount in Hc.
  - apply bind_Done in H as (w' & Hc & H). injection H as <-.
    unfold deleteFromGC in Hc. apply bind_Done in Hc as (r & _ & Hc).
    apply bind_Done in Hc as (u1 & _ & Hc). apply bind_Done in Hc as (u2 & _ & Hc).
    apply bind_Done in Hc as (u3 & _ & Hc). injection Hc as <-. apply onlyAt_delete.
  - unfold markRequiredObjectsInternal in H.
    apply bind_Done in H as (r & _ & H).
    destruct (dynamicClass r); try discriminate.
    + injection H as <-. apply onlyAt_refl.
    + apply bind_Done in H as (r' & _ & H). injection H as <-. apply onlyAt_refl.
    + injection H as <-. apply onlyAt_refl.
  - apply bind_Done in H as (w' & Hc & H). injection H as <-.
    unfold aboutToDie in Hc. apply bind_Done in Hc as (r & _ & Hc).
    injection Hc as <-. apply onlyAt_store.
Qed.

(** X1.  An operation invoked on one routine leaves every other routine as
    it was, and a call of the factory leaves every routine that was alive as
    it was: no operation of the module writes to, or destroys, a routine other
    than the one it is invoked on. *)
Theorem other_routines_untouched cfg op s s' q :
  perform cfg op s = Done s' →
  target op ≠ Some q →
  is_Some (routines (fst s) !! q) →
  routines (fst s') !! q = routines (fst s) !! q.
Proof.
  intros Hop Hq Halive. destruct (target op) as [this|] eqn:Ht.
  - destruct (perform_onlyAt cfg op s s' this Ht Hop) as [_ H].
    apply H. congruence.
  - destruct op; try discriminate. destruct s as [w v]. simpl in *.
    apply bind_Done in Hop as ([this w'] & Hc & H). injection H as <-. simpl.
    apply create_Done_inv in Hc as (-> & c & o & b & j & _ & ->).
    assert (newAddress w ≠ q).
    { intros <-. rewrite newAddress_fresh in Halive. by destruct Halive. }
    destruct makesCalls; simpl; by rewrite lookup_insert_ne.
Qed.

Lemma other_routines_untouched_witness :
  routines (delete_this 1 twoRoutinesWorld) !! 2%positive
  = Some (sampleRoutine GCAwareJITStubRoutine_class 3 true false None None).
Proof.
  assert (Hop : perform debugBuild (DeleteFromGC 1%positive)
                  (twoRoutinesWorld, {| visited := [] |})
                = Done (delete_this 1 twoRoutinesWorld, {| visited := [] |}))
    by (vm_compute; reflexivity).
  assert (Halive : is_Some (routines twoRoutinesWorld !! 2%positive))
    by (vm_compute; eexists; reflexivity).
  pose proof (other_routines_untouched debugBuild (DeleteFromGC 1%positive) _ _
                2%positive Hop ltac:(discriminate) Halive) as H.
  simpl fst in H. rewrite H. vm_compute. reflexivity.
Defined.

(** X2.  No operation takes an address out of the heap's set of stub
    routines: an operation invoked on a routine leaves the set as it was, the
    factory only appends to it, and after any sequence of operations every
    address that was in the set is still in it, also that of a routine that
    has been destroyed meanwhile. *)
Theorem registry_only_grows cfg :
  (∀ op s s', perform cfg op s = Done s' → is_Some (target op) →
     m_jitStubRoutines (fst s') = m_jitStubRoutines (fst s))
  ∧ (∀ ops s s', performAll cfg ops s = Done s' →
       m_jitStubRoutines (fst s) `prefix_of` m_jitStubRoutines (fst s')
       ∧ ∀ q, q ∈ m_jitStubRoutines (fst s) → q ∈ m_jitStubRoutines (fst s')).
Proof.
  assert (Hone : ∀ op s s', perform cfg op s = Done s' →
            m_jitStubRoutines (fst s) `prefix_of` m_jitStubRoutines (fst s')).
  { intros op s s' Hop. destruct (target op) as [this|] eqn:Ht.
    - destruct (perform_onlyAt cfg op s s' this Ht Hop) as [-> _]. done.
    - destruct op; try discriminate. destruct s as [w v]. simpl in *.
      apply bind_Done in Hop as ([this w'] & Hc & H). injection H as <-. simpl.
      apply create_Done_inv in Hc as (-> & c & o & b & j & _ & ->).
      destruct makesCalls; simpl; [by eexists | done]. }
  split.
  - intros op s s' Hop [this Ht].
    by destruct (perform_onlyAt cfg op s s' this Ht Hop) as [-> _].
  - induction ops as [|op ops IH]; intros s s' H; simpl in H.
    + injection H as <-. done.
    + apply bind_Done in H as (s1 & Hop & H).
      destruct (IH s1 s' H) as [Hp Hin]. apply Hone in Hop. split.
      * by etrans.
      * intros q Hq. apply Hin. destruct Hop as [l ->].
        apply elem_of_app. by left.
Qed.

Lemma registry_only_grows_witness :
  routines (delete_this 1 twoRoutinesWorld) !! 1%positive = None
  ∧ 1%positive ∈ m_jitStubRoutines (delete_this 1 twoRoutinesWorld).
Proof.
  split; [vm_compute; reflexivity |].
  assert (Hop : performAll debugBuild [DeleteFromGC 1%positive]
                  (twoRoutinesWorld, {| visited := [] |})
                = Done (delete_this 1 twoRoutinesWorld, {| visited := [] |}))
    by (vm_compute; reflexivity).
  pose proof (registry_only_grows debugBuild) as [_ H].
  destruct (H _ _ _ Hop) as [_ Hin]. apply Hin. simpl. apply list_elem_of_here.
Defined.

Lemma class_kept cfg op s s' q r r' :
  perform cfg op s = Done s' →
  routines (fst s) !! q = Some r → routines (fst s') !! q = Some r' →
  dynamicClass r' = dynamicClass r.
Proof.
  intros Hop Hr Hr'.
  destruct (keeps_perform (λ x, dynamicClass x = dynamicClass r)
              ltac:(done) ltac:(done) ltac:(done) cfg op s s' Hop q)
    as (r2 & Hr2 & Hc); [by exists r | by eexists | congruence].
Qed.

(** X3.  If every live GC-aware routine is in the heap's set of stub
    routines, this is still so after any sequence of operations: the factory
    registers what it creates and nothing is ever unregistered. *)
Theorem allRegistered_kept cfg ops : ∀ s s',
  allRegistered (fst s) → performAll cfg ops s = Done s' → allRegistered (fst s').
Proof.
  induction ops as [|op ops IH]; intros s s' Hall H; simpl in H.
  - by injection H as <-.
  - apply bind_Done in H as (s1 & Hop & H). apply (IH s1 s'); [| done].
    clear IH H s' ops. intros q r1 Hr1 Hgc.
    destruct (target op) as [this|] eqn:Ht.
    + destruct (perform_onlyAt cfg op s s1 this Ht Hop) as [-> Hother].
      destruct (decide (q = this)) as [-> | Hne].
      * destruct (perform_target_alive cfg op s s1 this Ht Hop) as [r Hr].
        apply (Hall this r Hr).
        by rewrite <- (class_kept cfg op s s1 this r r1 Hop Hr Hr1).
      * apply (Hall q r1); [| done]. by rewrite <- Hother.
    + destruct op; try discriminate. destruct s as [w v]. simpl in *.
      apply bind_Done in Hop as ([this w'] & Hc & H). injection H as <-.
      simpl in *.
      apply create_Done_inv in Hc as (-> & c & o & b & j & Hcls & ->).
      destruct makesCalls; simpl in *.
      * apply elem_of_app. destruct (decide (q = newAddress w)) as [-> | Hne].
        -- right. apply list_elem_of_here.
        -- left. rewrite lookup_insert_ne in Hr1 by done. by apply (Hall q r1).
      * destruct (decide (q = newAddress w)) as [-> | Hne].
        -- rewrite lookup_insert_eq in Hr1. injection Hr1 as <-. simpl in Hgc.
           congruence.
        -- rewrite lookup_insert_ne in Hr1 by done. by apply (Hall q r1).
Qed.

Lemma allRegistered_kept_witness :
  ∃ s', performAll debugBuild
          [Create sampleCode None true (Some 9%positive) None {| bits := 0 |};
           Release 2%positive; AboutToDie 2%positive]
          (twoRoutinesWorld, {| visited := [] |}) = Done s'
        ∧ allRegistered (fst s').
Proof.
  eexists. split; [vm_compute; reflexivity |].
  refine (allRegistered_kept debugBuild
            [Create sampleCode None true (Some 9%positive) None {| bits := 0 |};
             Release 2%positive; AboutToDie 2%positive]
            (twoRoutinesWorld, {| visited := [] |}) _ _ ltac:(vm_compute; reflexivity)).
  intros q r Hr _. simpl in *.
  destruct (decide (q = 1%positive)) as [-> | H1]; [apply list_elem_of_here |].
  destruct (decide (q = 2%positive)) as [-> | H2];
    [apply list_elem_of_further, list_elem_of_here |].
  rewrite lookup_insert_ne, lookup_singleton_ne in Hr by done. discriminate.
Defined.

(** ** The code blocks *)

(** What an operation does to the code blocks: nothing, or the cleanup of the
    handler of the routine it is invoked on. *)
Lemma WithExceptionHandler_observe_cleanup cfg this w w' r :
  routines w !! this = Some r →
  GCAwareJITStubRoutineWithExceptionHandler_observeZeroRefCount cfg this w = Done w' →
  codeBlocks w' = codeBlocks w
  ∨ ∃ p cb, m_codeBlockWithExceptionHandler r = Some p
      ∧ codeBlocks w !! p = Some cb
      ∧ codeBlocks w'
        = <[p := removeExceptionHandlerForCallSite (m_exceptionHandlerCallSiteIndex r)
                   (removeCallSiteIndex (m_exceptionHandlerCallSiteIndex r) cb)]>
            (codeBlocks w).
Proof.
  intros Hr H. destruct (ENABLE_DFG_JIT cfg) eqn:Hd;
    [destruct (m_codeBlockWithExceptionHandler r) as [p|] eqn:Hp |].
  - destruct (codeBlocks w !! p) as [cb|] eqn:Hcb.
    + rewrite (WithExceptionHandler_observe_live cfg this w r p cb Hd Hr Hp Hcb) in H.
      apply GCAware_observe_codeBlocks in H. right. exists p, cb.
      split; [done |]. split; [done |]. rewrite H. done.
    + unfold GCAwareJITStubRoutineWithExceptionHandler_observeZeroRefCount in H.
      rewrite Hd, (load_Done _ _ _ Hr) in H. simpl in H. rewrite Hp in H.
      unfold loadCodeBlock in H. rewrite Hcb in H. discriminate.
  - rewrite (WithExceptionHandler_observe_skip cfg this w r Hr (or_intror Hp)) in H.
    left. by apply GCAware_observe_codeBlocks in H.
  - rewrite (WithExceptionHandler_observe_skip cfg this w r Hr (or_introl Hd)) in H.
    left. by apply GCAware_observe_codeBlocks in H.
Qed.

Lemma observeZeroRefCount_cleanup cfg this w w' r :
  routines w !! this = Some r →
  observeZeroRefCount cfg this w = Done w' →
  codeBlocks w' = codeBlocks w
  ∨ ∃ p cb, m_codeBlockWithExceptionHandler r = Some p
      ∧ codeBlocks w !! p = Some cb
      ∧ codeBlocks w'
        = <[p := removeExceptionHandlerForCallSite (m_exceptionHandlerCallSiteIndex r)
                   (removeCallSiteIndex (m_exceptionHandlerCallSiteIndex r) cb)]>
            (codeBlocks w).
Proof.
  intros Hr. unfold observeZeroRefCount. rewrite (load_Done _ _ _ Hr). simpl.
  destruct (dynamicClass r).
  - intros H. apply bind_Done in H as (r' & _ & H). injection H as <-. by left.
  - intros H. left. by apply GCAware_observe_codeBlocks in H.
  - intros H. left. by apply GCAware_observe_codeBlocks in H.
  - by apply WithExceptionHandler_observe_cleanup.
Qed.

Lemma perform_cleanup cfg op s s' :
  perform cfg op s = Done s' →
  codeBlocks (fst s') = codeBlocks (fst s)
  ∨ ∃ this r p cb, target op = Some this
      ∧ routines (fst s) !! this = Some r
      ∧ m_codeBlockWithExceptionHandler r = Some p
      ∧ codeBlocks (fst s) !! p = Some cb
      ∧ codeBlocks (fst s')
        = <[p := removeExceptionHandlerForCallSite (m_exceptionHandlerCallSiteIndex r)
                   (removeCallSiteIndex (m_exceptionHandlerCallSiteIndex r) cb)]>
            (codeBlocks (fst s)).
Proof.
  destruct s as [w v]. destruct op; simpl; intros H.
  - apply bind_Done in H as ([this w'] & Hc & H). injection H as <-. left.
    apply create_Done_inv in Hc as (-> & c & o & b & j & _ & ->).
    by destruct makesCalls.
  - apply bind_Done in H as (w' & Hc & H). injection H as <-. left.
    unfold ref in Hc. apply bind_Done in Hc as (r & _ & Hc). by injection Hc as <-.
  - apply bind_Done in H as (w' & Hc & H). injection H as <-. simpl.
    unfold deref in Hc. apply bind_Done in Hc as (r & Hr%load_inv & Hc).
    destruct (m_refCount r =? 0)%N; [discriminate |].
    destruct (m_refCount r - 1 =? 0)%N; [| injection Hc as <-; by left].
    eapply (observeZeroRefCount_cleanup cfg this _ w'
              (set_refCount (m_refCount r - 1) r)) in Hc;
      [| simpl; apply lookup_insert_eq].
    destruct Hc as [Hc | (p & cb & Hp & Hcb & Hc)]; [by left |].
    right. by exists this, r, p, cb.
  - apply bind_Done in H as (w' & Hc & H). injection H as <-. simpl.
    unfold observeZeroRefCount in Hc.
    destruct (routines w !! this) as [r|] eqn:Hr;
      [| unfold load in Hc; rewrite Hr in Hc; discriminate].
    fold (observeZeroRefCount cfg this w) in Hc.
    destruct (observeZeroRefCount_cleanup cfg this w w' r Hr Hc)
      as [Hc' | (p & cb & Hp & Hcb & Hc')]; [by left |].
    right. by exists this, r, p, cb.
  - apply bind_Done in H as (w' & Hc & H). injection H as <-. left.
    unfold deleteFromGC in Hc. apply bind_Done in Hc as (r & _ & Hc).
    apply bind_Done in Hc as (u1 & _ & Hc). apply bind_Done in Hc as (u2 & _ & Hc).
    apply bind_Done in Hc as (u3 & _ & Hc). by injection Hc as <-.
  - left. unfold markRequiredObjectsInternal in H.
    apply bind_Done in H as (r & _ & H).
    destruct (dynamicClass r); try discriminate.
    + by injection H as <-.
    + apply bind_Done in H as (r' & _ & H). by injection H as <-.
    + by injection H as <-.
  - apply bind_Done in H as (w' & Hc & H). injection H as <-. left.
    unfold aboutToDie in Hc. apply bind_Done in Hc as (r & _ & Hc).
    by injection Hc as <-.
Qed.

(** X4.  No operation removes a code block or changes its tier, and the only
    handler and call-site index an operation can take out of a code block are
    those of the call site of the routine it is invoked on, in the code block
    that routine points back to; every other handler and call-site index is
    as it was. *)
Theorem other_handlers_untouched cfg op s s' p cb :
  perform cfg op s = Done s' →
  codeBlocks (fst s) !! p = Some cb →
  ∃ cb', codeBlocks (fst s') !! p = Some cb'
    ∧ jitType cb' = jitType cb
    ∧ ∀ j,
        (handlerForIndex cb' j = handlerForIndex cb j
         ∧ (j ∈ dfgCommon_callSiteIndices cb' ↔ j ∈ dfgCommon_callSiteIndices cb))
        ∨ (∃ this r, target op = Some this
             ∧ routines (fst s) !! this = Some r
             ∧ m_codeBlockWithExceptionHandler r = Some p
             ∧ bits (m_exceptionHandlerCallSiteIndex r) = j
             ∧ handlerForIndex cb' j = None
             ∧ j ∉ dfgCommon_callSiteIndices cb').
Proof.
  intros Hop Hcb.
  destruct (perform_cleanup cfg op s s' Hop)
    as [E | (this & r & p0 & cb0 & Ht & Hr & Hp & Hcb0 & E)].
  - exists cb. rewrite E. split; [done |]. split; [done |]. intros j. by left.
  - rewrite E. destruct (decide (p0 = p)) as [-> | Hne].
    + rewrite lookup_insert_eq. eexists. split; [reflexivity |].
      assert (cb0 = cb) as -> by congruence. split; [done |]. intros j.
      destruct (decide (bits (m_exceptionHandlerCallSiteIndex r) = j)) as [<- | Hj].
      * right. exists this, r. split; [done |]. split; [done |]. split; [done |].
        split; [done |]. split; [apply lookup_delete_eq |].
        apply removeCallSiteIndex_absent.
      * left. split.
        -- unfold handlerForIndex. simpl. by rewrite lookup_delete_ne.
        -- simpl. rewrite elem_of_difference, elem_of_singleton.
           split; [by intros [? _] | intros Hin; split; [done | congruence]].
    + rewrite lookup_insert_ne by done. exists cb. split; [done |].
      split; [done |]. intros j. by left.
Qed.

Lemma other_handlers_untouched_witness :
  ∃ s' cb',
    perform debugBuild (Release 1%positive)
      ({| routines := {[ 1%positive :=
                           sampleRoutine GCAwareJITStubRoutineWithExceptionHandler_class
                             1 false false None (Some 5%positive) ]};
          m_jitStubRoutines := [1%positive];
          codeBlocks := {[ 5%positive :=
                             {| jitType := DFGJIT;
                                m_exceptionHandlers :=
                                  {[ 7%N := sampleHandler; 8%N := sampleHandler ]};
                                dfgCommon_callSiteIndices := {[ 7%N; 8%N ]} |} ]} |},
       {| visited := [] |}) = Done s'
    ∧ codeBlocks (fst s') !! 5%positive = Some cb'
    ∧ handlerForIndex cb' 8 = Some sampleHandler
    ∧ handlerForIndex cb' 7 = None.
Proof.
  set (cb := {| jitType := DFGJIT;
                m_exceptionHandlers := {[ 7%N := sampleHandler; 8%N := sampleHandler ]};
                dfgCommon_callSiteIndices := {[ 7%N; 8%N ]} |}).
  set (w := {| routines := {[ 1%positive :=
                           sampleRoutine GCAwareJITStubRoutineWithExceptionHandler_class
                             1 false false None (Some 5%positive) ]};
               m_jitStubRoutines := [1%positive];
               codeBlocks := {[ 5%positive := cb ]} |}).
  destruct (perform debugBuild (Release 1%positive) (w, {| visited := [] |}))
    as [s'|] eqn:Hop; [| vm_compute in Hop; discriminate].
  assert (Hcb : codeBlocks (fst (w, {| visited := [] |})) !! 5%positive = Some cb)
    by (vm_compute; reflexivity).
  destruct (other_handlers_untouched debugBuild (Release 1%positive) _ s'
              5%positive cb Hop Hcb) as (cb' & Hcb' & _ & Hj).
  exists s', cb'. split; [reflexivity |]. split; [exact Hcb' |]. split.
  - destruct (Hj 8%N) as [[-> _] | (this & r & Ht & Hr & _ & Hb & _)];
      [vm_compute; reflexivity |].
    injection Ht as <-. vm_compute in Hr. injection Hr as <-. discriminate.
  - vm_compute in Hop. injection Hop as <-. vm_compute in Hcb'.
    injection Hcb' as <-. vm_compute. reflexivity.
Defined.

(** ** Counting references *)

Lemma ref_Done this w r :
  routines w !! this = Some r →
  ref this w = Done (store this (set_refCount (m_refCount r + 1) r) w).
Proof. intros Hr. unfold ref. by rewrite (load_Done _ _ _ Hr). Qed.

(** X5.  Acquiring and then releasing a routine that has at least one
    reference gives back the world as it was: the count returns to its value
    and [observeZeroRefCount()] is not invoked. *)
Theorem ref_then_deref cfg this w r :
  routines w !! this = Some r → m_refCount r ≠ 0%N →
  (w1 <- ref this w ;;; deref cfg this w1) = Done w.
Proof.
  intros Hr Hn. rewrite (ref_Done this w r Hr). simpl.
  rewrite (deref_more cfg this _ (set_refCount (m_refCount r + 1) r));
    [| simpl; apply lookup_insert_eq | simpl; lia].
  f_equal. destruct w as [rs reg cbs]. destruct r. unfold store, set_routines.
  simpl in *. f_equal. rewrite insert_insert_eq.
  replace (m_refCount0 + 1 - 1)%N with m_refCount0 by lia.
  by apply insert_id.
Qed.

Lemma ref_then_deref_witness :
  (w1 <- ref 2 twoRoutinesWorld ;;; deref debugBuild 2 w1) = Done twoRoutinesWorld.
Proof.
  apply (ref_then_deref debugBuild 2 twoRoutinesWorld
           (sampleRoutine GCAwareJITStubRoutine_class 3 true false None None));
    [vm_compute; reflexivity | discriminate].
Defined.

(** X6.  A GC-aware routine that is jettisoned and has no reference left,
    when acquired and released once more, is destroyed by that release: the
    count reaches zero a second time and [observeZeroRefCount()] takes its
    first branch.  The address remains in the heap's set of stub routines. *)
Theorem ref_then_deref_when_jettisoned cfg this w r :
  routines w !! this = Some r →
  isGCAware (dynamicClass r) = true →
  m_isJettisoned r = true → m_refCount r = 0%N →
  backReferenceLive w r →
  ∃ w', (w1 <- ref this w ;;; deref cfg this w1) = Done w'
    ∧ routines w' !! this = None
    ∧ m_jitStubRoutines w' = m_jitStubRoutines w.
Proof.
  intros Hr Hgc Hj Hn Hlive. rewrite (ref_Done this w r Hr). simpl. rewrite Hn.
  set (r1 := set_refCount (0 + 1) r). set (w1 := store this r1 w).
  assert (Hr1 : routines w1 !! this = Some r1) by (simpl; apply lookup_insert_eq).
  rewrite (deref_last cfg this w1 r1 Hr1 eq_refl).
  set (r0 := set_refCount 0 r1). set (w0 := store this r0 w1).
  assert (Hr0 : routines w0 !! this = Some r0) by (simpl; apply lookup_insert_eq).
  destruct (observeZeroRefCount_factor cfg this w0 r0 Hr0 Hgc Hlive)
    as (w2 & r2 & -> & Hr2 & Hj2 & _ & _ & _ & _ & Hreg & _).
  rewrite (GCAware_observe_jettisoned this w2 r2) by (simpl in *; congruence).
  eexists. split; [reflexivity |]. simpl. split; [apply lookup_delete_eq | done].
Qed.

Lemma ref_then_deref_when_jettisoned_witness :
  ∃ w', (w1 <- ref 1 twoRoutinesWorld ;;; deref debugBuild 1 w1) = Done w'
    ∧ routines w' !! 1%positive = None
    ∧ m_jitStubRoutines w' = [1%positive; 2%positive].
Proof.
  apply (ref_then_deref_when_jettisoned debugBuild 1 twoRoutinesWorld
           (sampleRoutine GCAwareJITStubRoutine_class 0 false true None None));
    [vm_compute; reflexivity | reflexivity | reflexivity | reflexivity | exact I].
Defined.

(** X7.  Releasing, one reference after the other, all the references of a
    GC-aware routine that is not jettisoned ends with the routine still in
    place, its count zero and [m_isJettisoned] set; [m_mayBeExecuting] and the
    heap's set of stub routines are as they were. *)
Theorem releases_until_zero cfg this : ∀ n w r,
  routines w !! this = Some r →
  isGCAware (dynamicClass r) = true →
  m_isJettisoned r = false →
  backReferenceLive w r →
  m_refCount r = N.of_nat (S n) →
  ∃ w' r', derefTimes cfg (S n) this w = Done w'
    ∧ routines w' !! this = Some r'
    ∧ m_refCount r' = 0%N
    ∧ m_isJettisoned r' = true
    ∧ m_mayBeExecuting r' = m_mayBeExecuting r
    ∧ m_jitStubRoutines w' = m_jitStubRoutines w.
Proof.
  induction n as [|n IH]; intros w r Hr Hgc Hj Hlive Hn.
  - simpl. rewrite (deref_last cfg this w r Hr Hn).
    set (r0 := set_refCount 0 r). set (w0 := store this r0 w).
    assert (Hr0 : routines w0 !! this = Some r0) by (simpl; apply lookup_insert_eq).
    destruct (observeZeroRefCount_factor cfg this w0 r0 Hr0 Hgc Hlive)
      as (w1 & r1 & -> & Hr1 & Hj1 & Hc1 & He1 & _ & _ & Hreg & _).
    rewrite (GCAware_observe_fresh this w1 r1) by (simpl in *; congruence).
    simpl. eexists _, _. split; [reflexivity |]. simpl. rewrite lookup_insert_eq.
    split; [reflexivity |]. simpl in *. repeat split; congruence.
  - change (derefTimes cfg (S (S n)) this w)
      with (bind (deref cfg this w) (λ w1, derefTimes cfg (S n) this w1)).
    rewrite (deref_more cfg this w r Hr) by lia. simpl bind.
    destruct (IH (store this (set_refCount (m_refCount r - 1) r) w)
                 (set_refCount (m_refCount r - 1) r))
      as (w' & r' & Hrun & Hr' & Hc' & Hj' & He' & Hreg');
      [simpl; apply lookup_insert_eq | done | done | done | simpl; lia |].
    by exists w', r'.
Qed.

Lemma releases_until_zero_witness :
  ∃ w' r', derefTimes debugBuild 3 2 twoRoutinesWorld = Done w'
    ∧ routines w' !! 2%positive = Some r'
    ∧ m_refCount r' = 0%N
    ∧ m_isJettisoned r' = true
    ∧ m_mayBeExecuting r' = true
    ∧ m_jitStubRoutines w' = [1%positive; 2%positive].
Proof.
  apply (releases_until_zero debugBuild 2 2 twoRoutinesWorld
           (sampleRoutine GCAwareJITStubRoutine_class 3 true false None None));
    [vm_compute; reflexivity | reflexivity | reflexivity | exact I | reflexivity].
Defined.

(** X8.  [observeZeroRefCount()] invoked on a GC-aware routine that is not
    jettisoned while its count is not zero stops the process on the
    RELEASE_ASSERT, in every build and for every class of GC-aware routine. *)
Theorem observeZeroRefCount_with_references cfg this w r :
  routines w !! this = Some r →
  isGCAware (dynamicClass r) = true →
  m_isJettisoned r = false →
  m_refCount r ≠ 0%N →
  backReferenceLive w r →
  observeZeroRefCount cfg this w = Abort ReleaseAssertionFailure.
Proof.
  intros Hr Hgc Hj Hn Hlive.
  destruct (observeZeroRefCount_factor cfg this w r Hr Hgc Hlive)
    as (w1 & r1 & -> & Hr1 & Hj1 & Hc1 & _).
  apply (GCAware_observe_referenced this w1 r1); congruence.
Qed.

Lemma observeZeroRefCount_with_references_witness :
  observeZeroRefCount releaseBuild 2 twoRoutinesWorld = Abort ReleaseAssertionFailure.
Proof.
  apply (observeZeroRefCount_with_references releaseBuild 2 twoRoutinesWorld
           (sampleRoutine GCAwareJITStubRoutine_class 3 true false None None));
    [vm_compute; reflexivity | reflexivity | reflexivity | discriminate | exact I].
Defined.

End JSC.

(** * Properties of the WebCore embeddings *)

Module RealtimeMediaSourceStatesFacts.

Import WebCore.

(** X11.  Different facing modes have different names, and the name is the
    empty atom for the unknown mode only: a name that is not empty tells the
    mode. *)
Theorem facingMode_injective :
  (∀ m1 m2, RealtimeMediaSourceStates.facingMode m1
            = RealtimeMediaSourceStates.facingMode m2 → m1 = m2)
  ∧ (∀ m, RealtimeMediaSourceStates.facingMode m
          = RealtimeMediaSourceStates.emptyAtom
          ↔ m = RealtimeMediaSourceStates.Unknown).
Proof.
  split.
  - intros [] []; simpl; intros E; try reflexivity; discriminate E.
  - intros []; simpl; split; intros E; try reflexivity; discriminate E.
Qed.

(** X12.  Different source types have different names, and no source type has
    the empty atom for a name. *)
Theorem sourceType_injective :
  (∀ t1 t2, RealtimeMediaSourceStates.sourceType t1
            = RealtimeMediaSourceStates.sourceType t2 → t1 = t2)
  ∧ (∀ t, RealtimeMediaSourceStates.sourceType t
          ≠ RealtimeMediaSourceStates.emptyAtom).
Proof.
  split.
  - intros [] []; simpl; intros E; try reflexivity; discriminate E.
  - intros []; simpl; discriminate.
Qed.

End RealtimeMediaSourceStatesFacts.

Module CSSImageGeneratorValueFacts.

Import WebCore.
Import WebCore.CSSImageGeneratorValue.

Section Sizes.

Context {FloatSize : Type} `{Countable FloatSize}.
Variable isEmpty : FloatSize → bool.

Abbreviation Value := (CSSImageGeneratorValue.Value (FloatSize := FloatSize)).

Lemma set_clients_same (v : Value) : set_clients (m_clients v) v = v.
Proof. by destruct v. Qed.

Lemma deref_ref (v : Value) : deref (ref v) = Some v.
Proof.
  unfold deref, ref. cbn -[Pos.eqb Pos.pred Pos.succ].
  destruct (Pos.eqb_spec (Pos.succ (m_refCount v)) 1) as [E|_]; [lia |].
  rewrite Pos.pred_succ. by destruct v.
Qed.

Lemma addClient_first renderer (v : Value) :
  m_clients v = ∅ → addClient renderer v = set_clients {[+ renderer +]} (ref v).
Proof.
  intros E. unfold addClient. rewrite decide_True by done.
  unfold set_clients, ref. cbn -[Pos.succ]. rewrite E. f_equal. multiset_solver.
Qed.

Lemma addClient_more renderer (v : Value) :
  m_clients v ≠ ∅ → addClient renderer v = set_clients (m_clients v ⊎ {[+ renderer +]}) v.
Proof. intros E. unfold addClient. by rewrite decide_False. Qed.

Lemma removeClient_present assertEnabled renderer (v : Value) :
  multiplicity renderer (m_clients v) ≠ 0 →
  removeClient assertEnabled renderer v
  = if bool_decide (m_clients v = {[+ renderer +]})
    then Returns (deref (set_clients ∅ v))
    else Returns (Some (set_clients (m_clients v ∖ {[+ renderer +]}) v)).
Proof.
  intros Hm. unfold removeClient.
  rewrite (bool_decide_eq_false_2 _ Hm), andb_false_r.
  destruct (decide (m_clients v = {[+ renderer +]})) as [E | E].
  - rewrite (bool_decide_eq_true_2 _ E). rewrite E.
    rewrite multiplicity_singleton_eq. rewrite (bool_decide_eq_true_2 (1 = 1)) by done.
    assert (({[+ renderer +]} : gmultiset positive) ∖ {[+ renderer +]} = ∅) as Hd
      by multiset_solver.
    cbn [m_clients set_clients]. rewrite Hd.
    by rewrite bool_decide_eq_true_2.
  - rewrite (bool_decide_eq_false_2 _ E).
    assert (bool_decide (multiplicity renderer (m_clients v) = 1)
            && bool_decide (m_clients (set_clients (m_clients v ∖ {[+ renderer +]}) v) = ∅)
            = false) as Hf.
    { apply andb_false_iff.
      destruct (decide (multiplicity renderer (m_clients v) = 1)) as [H1 | H1];
        [right | left; by apply bool_decide_eq_false_2].
      apply bool_decide_eq_false_2. cbn [m_clients set_clients]. intros Hd. apply E.
      apply gmultiset_eq. intros x. 
      assert (multiplicity x (m_clients v ∖ {[+ renderer +]}) = 0) as Hx
        by (rewrite Hd; apply multiplicity_empty).
      rewrite multiplicity_difference in Hx.
      destruct (decide (x = renderer)) as [-> | Hne].
      - rewrite multiplicity_singleton_eq. done.
      - rewrite multiplicity_singleton_ne in * by done. lia. }
    cbv zeta. by rewrite Hf.
Qed.

(** X13.  Removing a client right after adding it gives back the value as it
    was, in every build: the reference the value takes on itself with its
    first client is given up with that client, and a further client of a value
    that has clients changes nothing but the count of that client. *)
Theorem removeClient_addClient assertEnabled renderer (v : Value) :
  removeClient assertEnabled renderer (addClient renderer v) = Returns (Some v).
Proof.
  destruct (decide (m_clients v = ∅)) as [E | E].
  - rewrite (addClient_first renderer v E).
    rewrite removeClient_present
      by (cbn [m_clients set_clients]; rewrite multiplicity_singleton_eq; lia).
    cbn [m_clients set_clients]. rewrite bool_decide_eq_true_2 by done.
    replace (set_clients ∅ (set_clients {[+ renderer +]} (ref v))) with (ref v)
      by (destruct v; unfold ref, set_clients; cbn -[Pos.succ] in *; by rewrite E).
    by rewrite deref_ref.
  - rewrite (addClient_more renderer v E).
    rewrite removeClient_present
      by (cbn [m_clients set_clients];
          rewrite multiplicity_disj_union, multiplicity_singleton_eq; lia).
    cbn [m_clients set_clients].
    rewrite bool_decide_eq_false_2.
    + assert ((m_clients v ⊎ {[+ renderer +]}) ∖ {[+ renderer +]} = m_clients v) as ->
        by multiset_solver.
      by destruct v.
    + intros Heq. apply E. apply gmultiset_eq. intros x.
      assert (multiplicity x (m_clients v ⊎ {[+ renderer +]})
              = multiplicity x ({[+ renderer +]} : gmultiset positive)) as Hx
        by (by rewrite Heq).
      rewrite multiplicity_disj_union in Hx. rewrite multiplicity_empty. lia.
Qed.

Lemma difference_not_empty renderer (X : gmultiset positive) :
  multiplicity renderer X ≠ 0 → X ≠ {[+ renderer +]} → X ∖ {[+ renderer +]} ≠ ∅.
Proof.
  intros Hm Hne Hd. apply Hne. apply gmultiset_eq. intros x.
  assert (multiplicity x (X ∖ {[+ renderer +]}) = 0) as Hx
    by (rewrite Hd; apply multiplicity_empty).
  rewrite multiplicity_difference in Hx.
  destruct (decide (x = renderer)) as [-> | Hxr].
  - rewrite multiplicity_singleton_eq in *. lia.
  - rewrite multiplicity_singleton_ne in * by done. lia.
Qed.

(** X14.  The value holds one reference on itself exactly while it has
    clients: [addClient] never changes the number of references held by
    others, and [removeClient] of a client either keeps that number, removing
    one occurrence of the client and leaving the cached images alone, or
    destroys the value, which it does exactly when the renderer is the only
    client and the value's own reference is the last one. *)
Theorem client_reference_accounting :
  (∀ renderer (v : Value),
     referencesOfOthers (addClient renderer v) = referencesOfOthers v)
  ∧ (∀ assertEnabled renderer (v : Value),
       multiplicity renderer (m_clients v) ≠ 0 →
       (removeClient assertEnabled renderer v = Returns Datatypes.None
        ↔ m_clients v = {[+ renderer +]} ∧ m_refCount v = 1%positive)
       ∧ ∀ v', removeClient assertEnabled renderer v = Returns (Some v') →
           referencesOfOthers v' = referencesOfOthers v
           ∧ m_clients v' = m_clients v ∖ {[+ renderer +]}
           ∧ m_images v' = m_images v).
Proof.
  split.
  - intros renderer v. unfold referencesOfOthers.
    destruct (decide (m_clients v = ∅)) as [E | E].
    + rewrite (addClient_first renderer v E). cbn [m_clients m_refCount set_clients ref].
      rewrite decide_False by multiset_solver. lia.
    + rewrite (addClient_more renderer v E). cbn [m_clients m_refCount set_clients].
      rewrite decide_False by multiset_solver. done.
  - intros assertEnabled renderer v Hm.
    rewrite (removeClient_present assertEnabled renderer v Hm).
    destruct (decide (m_clients v = {[+ renderer +]})) as [E | E].
    + rewrite (bool_decide_eq_true_2 _ E). unfold deref.
      cbn [m_clients m_refCount m_images set_clients].
      destruct (Pos.eqb_spec (m_refCount v) 1) as [E1 | E1].
      * split; [done |]. intros v' [=].
      * split; [split; [intros [=] | intros [_ ?]; done] |].
        intros v' [= <-]. unfold referencesOfOthers.
        cbn [m_clients m_refCount m_images].
        rewrite decide_True by done. rewrite decide_False by (rewrite E; multiset_solver).
        split; [lia |]. split; [rewrite E; multiset_solver | done].
    + rewrite (bool_decide_eq_false_2 _ E).
      split; [split; [intros [=] | intros [? _]; done] |].
      intros v' [= <-]. unfold referencesOfOthers.
      cbn [m_clients m_refCount m_images set_clients].
      rewrite decide_False by (by apply difference_not_empty).
      rewrite decide_False by (intros E0; rewrite E0, multiplicity_empty in Hm; done).
      done.
Qed.

(** X15.  [removeClient] of a renderer that is not a client stops on the
    ASSERT where assertions are compiled in, and changes nothing where they
    are not: in particular it does not release a reference. *)
Theorem removeClient_of_no_client renderer (v : Value) :
  multiplicity renderer (m_clients v) = 0 →
  removeClient true renderer v = AssertionFailed
  ∧ removeClient false renderer v = Returns (Some v).
Proof.
  intros Hm. unfold removeClient. rewrite (bool_decide_eq_true_2 _ Hm). simpl.
  split; [done |].
  rewrite bool_decide_eq_false_2 by lia. simpl.
  assert (m_clients v ∖ {[+ renderer +]} = m_clients v) as ->.
  { apply gmultiset_eq. intros x. rewrite multiplicity_difference.
    destruct (decide (x = renderer)) as [-> | Hne].
    - rewrite multiplicity_singleton_eq. lia.
    - rewrite multiplicity_singleton_ne by done. lia. }
  by destruct v.
Qed.

(** X16.  An image saved for a size that has none is what
    [cachedImageForSize] returns for that size, unless the size is empty, for
    which the result is always null; the results for all other sizes are as
    before, and a lookup never changes what a later lookup returns. *)
Theorem cache_save_then_lookup assertEnabled size image (v : Value) :
  m_images v !! size = Datatypes.None →
  ∃ v1, saveCachedImageForSize assertEnabled size image v = Returns v1
    ∧ fst (cachedImageForSize isEmpty size v1)
      = (if isEmpty size then Datatypes.None else image)
    ∧ (∀ size2, size2 ≠ size →
         fst (cachedImageForSize isEmpty size2 v1)
         = fst (cachedImageForSize isEmpty size2 v))
    ∧ ∀ size1 size2,
        fst (cachedImageForSize isEmpty size1
               (snd (cachedImageForSize isEmpty size2 v1)))
        = fst (cachedImageForSize isEmpty size1 v1).
Proof.
  intros Hnone. unfold saveCachedImageForSize. rewrite Hnone.
  rewrite (bool_decide_eq_false_2 (is_Some Datatypes.None)) by (by intros [? ?]).
  rewrite andb_false_r. eexists. split; [reflexivity |].
  assert (Hstable : ∀ (u : Value) size1 size2,
            fst (cachedImageForSize isEmpty size1
                   (snd (cachedImageForSize isEmpty size2 u)))
            = fst (cachedImageForSize isEmpty size1 u)).
  { intros u size1 size2. unfold cachedImageForSize at 2.
    destruct (isEmpty size2); [done |].
    destruct (m_images u !! size2) as [c|] eqn:Hc; [| done].
    cbn [snd]. unfold cachedImageForSize. destruct (isEmpty size1); [done |].
    cbn [m_images set_images].
    destruct (decide (size2 = size1)) as [-> | Hne].
    - rewrite lookup_insert_eq, Hc. done.
    - rewrite lookup_insert_ne by done. by destruct (m_images u !! size1). }
  split; [| split; [| apply Hstable]].
  - unfold cachedImageForSize. destruct (isEmpty size); [done |].
    cbn [m_images set_images]. by rewrite lookup_insert_eq.
  - intros size2 Hne. unfold cachedImageForSize. destruct (isEmpty size2); [done |].
    cbn [m_images set_images]. rewrite lookup_insert_ne by done.
    by destruct (m_images v !! size2).
Qed.

(** X17.  Every cached image is filed under its own size, and saving and
    looking up keep it so; hence the eviction timer of a cached image removes
    the entry of that image and no other, and fired right after the image was
    saved it gives back the value as it was before. *)
Theorem eviction_removes_own_entry assertEnabled :
  (∀ size image (v v1 : Value),
     m_images v !! size = Datatypes.None →
     saveCachedImageForSize assertEnabled size image v = Returns v1 →
     evictionTimerFired assertEnabled (CachedGeneratedImage_ctor size image) v1
     = Returns v)
  ∧ (∀ size image (v v1 : Value),
       filedBySize v →
       saveCachedImageForSize assertEnabled size image v = Returns v1 →
       filedBySize v1)
  ∧ (∀ size (v : Value),
       filedBySize v → filedBySize (snd (cachedImageForSize isEmpty size v)))
  ∧ (∀ size c (v : Value),
       filedBySize v →
       m_images v !! size = Some c →
       ∃ v', evictionTimerFired assertEnabled c v = Returns v'
         ∧ m_images v' !! size = Datatypes.None
         ∧ (∀ size2, size2 ≠ size → m_images v' !! size2 = m_images v !! size2)
         ∧ filedBySize v').
Proof.
  split; [| split; [| split]].
  - intros size image v v1 Hnone. unfold saveCachedImageForSize. rewrite Hnone.
    rewrite (bool_decide_eq_false_2 (is_Some Datatypes.None)) by (by intros [? ?]).
    rewrite andb_false_r. intros [= <-].
    unfold evictionTimerFired, evictCachedGeneratedImage.
    cbn [m_size CachedGeneratedImage_ctor m_images set_images].
    rewrite lookup_insert_eq.
    rewrite bool_decide_eq_true_2 by (by eexists). rewrite andb_false_r.
    f_equal. destruct v as [n c m]. unfold set_images. cbn in *. f_equal.
    rewrite delete_insert_eq. by apply delete_id.
  - intros size image v v1 Hf. unfold saveCachedImageForSize.
    destruct (_ && _); [discriminate |].
    destruct (m_images v !! size) eqn:Hs; intros [= <-]; [done |].
    intros s c. cbn [m_images set_images].
    destruct (decide (size = s)) as [-> | Hne].
    + rewrite lookup_insert_eq. by intros [= <-].
    + rewrite lookup_insert_ne by done. apply Hf.
  - intros size v Hf. unfold cachedImageForSize. destruct (isEmpty size); [done |].
    destruct (m_images v !! size) as [c|] eqn:Hc; [| done].
    intros s c'. cbn [snd m_images set_images].
    destruct (decide (size = s)) as [-> | Hne].
    + rewrite lookup_insert_eq. intros [= <-]. cbn. by apply Hf.
    + rewrite lookup_insert_ne by done. apply Hf.
  - intros size c v Hf Hc. unfold evictionTimerFired, evictCachedGeneratedImage.
    rewrite (Hf size c Hc), Hc.
    rewrite bool_decide_eq_true_2 by (by eexists). rewrite andb_false_r.
    eexists. split; [reflexivity |]. cbn [m_images set_images].
    split; [apply lookup_delete_eq |]. split.
    + intros size2 Hne. by rewrite lookup_delete_ne.
    + intros s c'. cbn [m_images set_images].
      destruct (decide (size = s)) as [-> | Hne].
      * rewrite lookup_delete_eq. discriminate.
      * rewrite lookup_delete_ne by done. apply Hf.
Qed.

End Sizes.

Lemma client_reference_accounting_witness :
  referencesOfOthers (addClient 7 sampleValue) = referencesOfOthers sampleValue
  ∧ removeClient true 7 sampleValueWithClient = Returns Datatypes.None.
Proof.
  pose proof (client_reference_accounting (FloatSize := Z * Z)) as [Hadd Hrem].
  split; [exact (Hadd 7%positive sampleValue) |].
  assert (Hm : multiplicity 7%positive (m_clients sampleValueWithClient) ≠ 0)
    by (unfold sampleValueWithClient; cbn [m_clients];
        rewrite multiplicity_singleton_eq; lia).
  destruct (Hrem true 7%positive sampleValueWithClient Hm) as [[_ Hdestroyed] _].
  apply Hdestroyed. split; reflexivity.
Defined.

Lemma removeClient_of_no_client_witness :
  removeClient true 7 sampleValue = AssertionFailed
  ∧ removeClient false 7 sampleValue = Returns (Some sampleValue).
Proof.
  apply (removeClient_of_no_client (FloatSize := Z * Z) 7%positive sampleValue).
  unfold sampleValue. cbn [m_clients]. apply multiplicity_empty.
Defined.

Lemma cache_save_then_lookup_witness :
  ∃ v1, saveCachedImageForSize true (2, 3)%Z (Some 11%positive) sampleValue
        = Returns v1
    ∧ fst (cachedImageForSize integerSizeIsEmpty (2, 3)%Z v1) = Some 11%positive.
Proof.
  destruct (cache_save_then_lookup integerSizeIsEmpty true (2, 3)%Z
              (Some 11%positive) sampleValue eq_refl) as (v1 & Hsave & Hget & _).
  exists v1. split; [exact Hsave | exact Hget].
Defined.

Lemma eviction_removes_own_entry_witness :
  ∃ v1, saveCachedImageForSize true (2, 3)%Z (Some 11%positive) sampleValue
        = Returns v1
    ∧ evictionTimerFired true
        (CachedGeneratedImage_ctor (2, 3)%Z (Some 11%positive)) v1
      = Returns sampleValue.
Proof.
  pose proof (eviction_removes_own_entry integerSizeIsEmpty true) as [H _].
  eexists. split; [vm_compute; reflexivity |].
  apply (H (2, 3)%Z (Some 11%positive) sampleValue); [reflexivity |].
  vm_compute. reflexivity.
Defined.

End CSSImageGeneratorValueFacts.

Module ScriptedAnimationControllerFacts.

Import WebCore.
Import WebCore.ScriptedAnimationController.

Lemma firedCallbacks_app l1 l2 :
  firedCallbacks (l1 ++ l2) = firedCallbacks l1 ++ firedCallbacks l2.
Proof. apply omap_app. Qed.

Lemma sameBookkeeping_refl w : sameBookkeeping w w.
Proof. by repeat split. Qed.

Lemma sameBookkeeping_trans w w1 w2 :
  sameBookkeeping w w1 → sameBookkeeping w1 w2 → sameBookkeeping w w2.
Proof.
  intros (A1 & A2 & A3 & A4 & A5 & A6) (B1 & B2 & B3 & B4 & B5 & B6).
  repeat split; congruence.
Qed.

Lemma startAnimationTimer_sameBookkeeping w :
  sameBookkeeping w (startAnimationTimer w).
Proof.
  unfold startAnimationTimer. destruct (m_animationTimerIsActive (controller w)).
  - apply sameBookkeeping_refl.
  - repeat split; simpl; try done. by rewrite firedCallbacks_app, app_nil_r.
Qed.

Lemma scheduleAnimation_sameBookkeeping cfg w :
  sameBookkeeping w (scheduleAnimation cfg w).
Proof.
  unfold scheduleAnimation.
  destruct (negb (requestAnimationFrameEnabled (controller w)));
    [apply sameBookkeeping_refl |].
  destruct (USE_REQUEST_ANIMATION_FRAME_TIMER cfg).
  - destruct (USE_REQUEST_ANIMATION_FRAME_DISPLAY_MONITOR cfg
              && negb (m_isUsingTimer (controller w))
              && negb (m_isThrottled (controller w))).
    + assert (Hrec : sameBookkeeping w (record DisplayMonitorScheduleAnimation w)).
      { repeat split; simpl; try done. by rewrite firedCallbacks_app, app_nil_r. }
      cbv zeta. destruct (displayMonitorSchedules _); [done |].
      eapply sameBookkeeping_trans; [exact Hrec |].
      eapply sameBookkeeping_trans; [| apply startAnimationTimer_sameBookkeeping].
      by repeat split.
    + apply startAnimationTimer_sameBookkeeping.
  - destruct (m_document (controller w)) as [d|]; [| apply sameBookkeeping_refl].
    destruct (hasView d); [| apply sameBookkeeping_refl].
    repeat split; simpl; try done. by rewrite firedCallbacks_app, app_nil_r.
Qed.





Lemma sameBookkeeping_silent w w' : sameBookkeeping w w' → silent w w'.
Proof. by intros (_ & _ & _ & _ & _ & A6). Qed.

Lemma silent_refl w : silent w w.
Proof. done. Qed.

Lemma silent_trans w w1 w2 : silent w w1 → silent w1 w2 → silent w w2.
Proof. unfold silent. congruence. Qed.



Lemma resume_silent cfg w : silent w (resume cfg w).
Proof.
  unfold resume.
  set (w1 := if (0 <? m_suspendCount (controller w))%Z then _ else w).
  assert (H1 : silent w w1) by (unfold w1; by destruct (_ <? _)%Z).
  destruct (_ && _); [| done].
  eapply silent_trans; [exact H1 |].
  apply sameBookkeeping_silent, scheduleAnimation_sameBookkeeping.
Qed.

(** [registerCallback], field by field. *)
Lemma registerCallback_fields cfg callback w :
  let id := (m_nextCallbackId (controller w) + 1)%Z in
  let w' := snd (registerCallback cfg callback w) in
  fst (registerCallback cfg callback w) = id
  ∧ m_callbacks (controller w') = m_callbacks (controller w) ++ [callback]
  ∧ m_nextCallbackId (controller w') = id
  ∧ m_suspendCount (controller w') = m_suspendCount (controller w)
  ∧ m_document (controller w') = m_document (controller w)
  ∧ (∀ b, callbackObjects w' b
          = if decide (callback = b)
            then {| m_id := id; m_firedOrCancelled := false;
                    m_useLegacyTimeBase :=
                      m_useLegacyTimeBase (callbackObjects w callback) |}
            else callbackObjects w b)
  ∧ firedCallbacks (events w') = firedCallbacks (events w).
Proof.
  intros id w'. split; [done |]. unfold w', registerCallback. cbv zeta.
  match goal with
  | |- context [if _ then scheduleAnimation cfg ?x else _] => set (w2 := x)
  end.
  match goal with
  | |- context [if ?c then scheduleAnimation cfg w2 else w2] =>
      assert (Hs : sameBookkeeping w2 (if c then scheduleAnimation cfg w2 else w2))
        by (destruct c;
            [apply scheduleAnimation_sameBookkeeping | apply sameBookkeeping_refl])
  end.
  cbn [snd]. destruct Hs as (A1 & A2 & A3 & A4 & A5 & A6).
  rewrite A1, A2, A3, A4, A5, A6. unfold w2. simpl.
  repeat split; try done.
  - intros b. unfold insert, fn_insert. destruct (decide (callback = b)) as [<- | Hne].
    + rewrite !decide_True by done. done.
    + done.
  - by rewrite firedCallbacks_app, app_nil_r.
Qed.


Lemma registerCallback_silent cfg callback w :
  silent w (snd (registerCallback cfg callback w)).
Proof. by destruct (registerCallback_fields cfg callback w) as (_ & _ & _ & _ & _ & _ & A). Qed.

(** [cancelCallback]: no callback with the id, or a first one. *)
Lemma cancelCallbackFrom_miss id rest : ∀ before w,
  Forall (λ a, m_id (callbackObjects w a) ≠ id) rest →
  cancelCallbackFrom id before rest w = w.
Proof.
  induction rest as [|a rest IH]; intros before w Hall; [done |].
  apply Forall_cons in Hall as [Ha Hall]. simpl.
  destruct (Z.eqb_spec (m_id (callbackObjects w a)) id); [done |]. by apply IH.
Qed.

Lemma cancelCallbackFrom_hit id l1 a l2 : ∀ before w,
  Forall (λ x, m_id (callbackObjects w x) ≠ id) l1 →
  m_id (callbackObjects w a) = id →
  cancelCallbackFrom id before (l1 ++ a :: l2) w
  = set_controller (set_callbacks (before ++ l1 ++ l2) (controller w))
      (record (DidCancelAnimationFrame id)
         (set_callbackObject a (set_firedOrCancelled true (callbackObjects w a)) w)).
Proof.
  induction l1 as [|x l1 IH]; intros before w Hall Ha; simpl.
  - rewrite Ha, Z.eqb_refl. done.
  - apply Forall_cons in Hall as [Hx Hall].
    destruct (Z.eqb_spec (m_id (callbackObjects w x)) id); [done |].
    rewrite (IH (before ++ [x]) w Hall Ha). by rewrite <- app_assoc.
Qed.

Lemma first_with_id id (objects : positive → RequestAnimationFrameCallback) l :
  Forall (λ a, m_id (objects a) ≠ id) l
  ∨ ∃ l1 a l2, l = l1 ++ a :: l2
      ∧ Forall (λ x, m_id (objects x) ≠ id) l1 ∧ m_id (objects a) = id.
Proof.
  induction l as [|x l IH]; [by left |].
  destruct (decide (m_id (objects x) = id)) as [E | E].
  - right. exists [], x, l. by repeat split.
  - destruct IH as [IH | (l1 & a & l2 & -> & Hl1 & Ha)].
    + left. by apply Forall_cons.
    + right. exists (x :: l1), a, l2. repeat split; [| done]. by apply Forall_cons.
Qed.


Lemma cancelCallback_silent id w : silent w (cancelCallback id w).
Proof.
  unfold cancelCallback.
  destruct (first_with_id id (callbackObjects w) (m_callbacks (controller w)))
    as [Hmiss | (l1 & a & l2 & E & Hl1 & Ha)].
  - by rewrite cancelCallbackFrom_miss.
  - rewrite E, (cancelCallbackFrom_hit id l1 a l2 [] w Hl1 Ha).
    unfold silent. simpl. by rewrite firedCallbacks_app, app_nil_r.
Qed.



Lemma scriptStep_silent cfg action w : silent w (scriptStep cfg action w).
Proof.
  destruct action; simpl.
  - apply registerCallback_silent.
  - apply cancelCallback_silent.
  - done.
  - apply resume_silent.
Qed.


Lemma runScript_silent cfg actions : ∀ w, silent w (runScript cfg actions w).
Proof.
  induction actions as [|action actions IH]; intros w; simpl; [done |].
  eapply silent_trans; [apply scriptStep_silent | apply IH].
Qed.



Section Callbacks.

Variable handleEvent : positive → World → list ScriptAction.






End Callbacks.


Lemma filter_agree {A} (P Q : A → Prop) `{!∀ x, Decision (P x)} `{!∀ x, Decision (Q x)}
    (l : list A) :
  (∀ x, x ∈ l → (P x ↔ Q x)) → filter P l = filter Q l.
Proof.
  induction l as [|x l IH]; intros Hag; [done |].
  rewrite !filter_cons.
  assert (Hx : P x ↔ Q x) by (apply Hag, list_elem_of_here).
  rewrite IH by (intros y Hy; apply Hag; by apply list_elem_of_further).
  destruct (decide (P x)), (decide (Q x)); tauto.
Qed.

Section Frames.

Variable handleEvent : positive → World → list ScriptAction.



Lemma fireCallbacks_fired cfg callbacks : ∀ w,
  ∃ fired,
    firedCallbacks (events (fireCallbacks handleEvent cfg callbacks w))
    = firedCallbacks (events w) ++ fired
    ∧ fired `sublist_of` callbacks.
Proof.
  induction callbacks as [|a callbacks IH]; intros w; simpl.
  - exists []. by rewrite app_nil_r.
  - destruct (m_firedOrCancelled (callbackObjects w a)).
    + destruct (IH w) as (fired & E & Hsub). exists fired. split; [done |].
      by apply sublist_cons.
    + match goal with
      | |- context [fireCallbacks handleEvent cfg callbacks ?x] => set (w1 := x)
      end.
      assert (E1 : firedCallbacks (events w1) = firedCallbacks (events w) ++ [a]).
      { unfold w1. simpl. rewrite firedCallbacks_app, app_nil_r.
        rewrite (runScript_silent cfg _ _). simpl.
        rewrite !firedCallbacks_app. simpl. by rewrite app_nil_r. }
      destruct (IH w1) as (fired & E & Hsub). exists (a :: fired).
      split; [| by apply sublist_skip].
      rewrite E, E1. by rewrite <- app_assoc.
Qed.

(** X20.  The callbacks one call of [serviceScriptedAnimations] fires are
    among those pending when it starts and are fired in the order of the list,
    so a callback registered while the frame is serviced waits for the next
    one, whatever the scripts do; and when the call gets past its guard, no
    callback that is pending afterwards has its fired-or-cancelled flag
    set. *)
Theorem frame_fires_pending_callbacks cfg w :
  (∃ fired,
     firedCallbacks (events (serviceScriptedAnimations handleEvent cfg w))
     = firedCallbacks (events w) ++ fired
     ∧ fired `sublist_of` m_callbacks (controller w))
  ∧ (m_callbacks (controller w) ≠ [] →
     m_suspendCount (controller w) = 0%Z →
     requestAnimationFrameEnabled (controller w) = true →
     Forall (λ a, m_firedOrCancelled
                    (callbackObjects (serviceScriptedAnimations handleEvent cfg w) a)
                  = false)
       (m_callbacks (controller (serviceScriptedAnimations handleEvent cfg w)))).
Proof.
  unfold serviceScriptedAnimations. split.
  - destruct (_ || _).
    + exists []. split; [by rewrite app_nil_r | apply sublist_nil_l].
    + cbv zeta.
      destruct (fireCallbacks_fired cfg (m_callbacks (controller w)) w)
        as (fired & E & Hsub).
      exists fired. split; [| done]. rewrite <- E.
      destruct (negb _); [| done].
      by destruct (scheduleAnimation_sameBookkeeping cfg
                     (removeFiredOrCancelled
                        (fireCallbacks handleEvent cfg (m_callbacks (controller w)) w)))
        as (_ & _ & _ & _ & _ & ->).
  - intros Hne Hc He.
    destruct (m_callbacks (controller w)) as [|a l] eqn:El; [done |].
    rewrite Hc, He. simpl.
    set (w1 := removeFiredOrCancelled _).
    assert (H1 : Forall (λ a, m_firedOrCancelled (callbackObjects w1 a) = false)
                   (m_callbacks (controller w1))).
    { apply Forall_forall. intros x Hx. unfold w1 in Hx. simpl in Hx.
      by apply list_elem_of_filter in Hx as [Hx _]. }
    destruct (negb _); [| done].
    destruct (scheduleAnimation_sameBookkeeping cfg w1) as (_ & -> & _ & _ & -> & _).
    done.
Qed.
End Frames.

Lemma filter_none {A} (P : A → Prop) `{!∀ x, Decision (P x)} (l : list A) :
  (∀ x, x ∈ l → ¬ P x) → filter P l = [].
Proof.
  induction l as [|x l IH]; intros Hn; [done |].
  rewrite filter_cons_False by (apply Hn, list_elem_of_here).
  apply IH. intros y Hy. apply Hn. by apply list_elem_of_further.
Qed.

Section Quiet.

Variable handleEvent : positive → World → list ScriptAction.
Hypothesis quiet : ∀ a w, handleEvent a w = [].

Lemma fireCallbacks_quiet cfg callbacks : ∀ w,
  NoDup callbacks →
  controller (fireCallbacks handleEvent cfg callbacks w) = controller w
  ∧ firedCallbacks (events (fireCallbacks handleEvent cfg callbacks w))
    = firedCallbacks (events w)
      ++ filter (λ a, m_firedOrCancelled (callbackObjects w a) = false) callbacks
  ∧ ∀ b, m_firedOrCancelled
           (callbackObjects (fireCallbacks handleEvent cfg callbacks w) b)
         = m_firedOrCancelled (callbackObjects w b) || bool_decide (b ∈ callbacks).
Proof.
  induction callbacks as [|a callbacks IH]; intros w Hnd; cbn [fireCallbacks].
  - split; [done |]. split; [by rewrite filter_nil, app_nil_r |]. intros b.
    rewrite bool_decide_eq_false_2 by apply not_elem_of_nil. by rewrite orb_false_r.
  - apply NoDup_cons in Hnd as [Ha Hnd].
    destruct (m_firedOrCancelled (callbackObjects w a)) eqn:Hf.
    + destruct (IH w Hnd) as (E1 & E2 & E3). split; [done |]. split.
      * rewrite E2. by rewrite filter_cons_False by congruence.
      * intros b. rewrite E3. destruct (decide (b = a)) as [-> | Hne].
        -- rewrite Hf. done.
        -- f_equal. apply bool_decide_ext. rewrite elem_of_cons. tauto.
    + rewrite quiet. cbn [runScript].
      match goal with
      | |- context [fireCallbacks handleEvent cfg callbacks ?x] => set (w1 := x)
      end.
      destruct (IH w1 Hnd) as (E1 & E2 & E3). split; [by rewrite E1 |]. split.
      * rewrite E2. unfold w1 at 1. simpl. rewrite !firedCallbacks_app. simpl.
        rewrite !app_nil_r. rewrite filter_cons_True by done.
        rewrite <- app_assoc. simpl. do 2 f_equal.
        apply filter_agree. intros x Hx. unfold w1. simpl.
        unfold insert, fn_insert. destruct (decide (a = x)) as [<- | Hne]; [done |].
        done.
      * intros b. rewrite E3. unfold w1. simpl. unfold insert, fn_insert.
        destruct (decide (a = b)) as [<- | Hne].
        -- simpl. rewrite Hf. simpl. symmetry. apply bool_decide_eq_true_2.
           apply list_elem_of_here.
        -- f_equal. apply bool_decide_ext. rewrite elem_of_cons.
           split; [tauto | intros [-> | ?]; [done | done]].
Qed.

(** X21.  When the scripts leave the controller alone, a frame fires every
    pending callback whose flag is clear, once and in the order of
    registration, and leaves no callback pending; no id is handed out. *)
Theorem quiet_frame cfg w :
  NoDup (m_callbacks (controller w)) →
  m_callbacks (controller w) ≠ [] →
  m_suspendCount (controller w) = 0%Z →
  requestAnimationFrameEnabled (controller w) = true →
  firedCallbacks (events (serviceScriptedAnimations handleEvent cfg w))
  = firedCallbacks (events w)
    ++ filter (λ a, m_firedOrCancelled (callbackObjects w a) = false)
         (m_callbacks (controller w))
  ∧ m_callbacks (controller (serviceScriptedAnimations handleEvent cfg w)) = []
  ∧ m_nextCallbackId (controller (serviceScriptedAnimations handleEvent cfg w))
    = m_nextCallbackId (controller w).
Proof.
  intros Hnd Hne Hc He. unfold serviceScriptedAnimations.
  destruct (m_callbacks (controller w)) as [|a l] eqn:El; [done |].
  rewrite Hc, He. simpl orb. cbv iota zeta. rewrite <- El in *.
  destruct (fireCallbacks_quiet cfg (m_callbacks (controller w)) w Hnd)
    as (E1 & E2 & E3).
  set (w1 := fireCallbacks handleEvent cfg (m_callbacks (controller w)) w) in *.
  assert (Hrm : m_callbacks (controller (removeFiredOrCancelled w1)) = []).
  { simpl. rewrite E1. apply filter_none. intros x Hx. rewrite E3.
    rewrite (bool_decide_eq_true_2 _ Hx), orb_true_r. done. }
  rewrite Hrm. simpl. split; [exact E2 |]. split; [exact Hrm |]. by rewrite E1.
Qed.

End Quiet.






Lemma frame_fires_pending_callbacks_witness :
  firedCallbacks
    (events (serviceScriptedAnimations chainingScript frameViewBuild twoPendingWorld))
  = [1%positive; 2%positive]
  ∧ Forall (λ a, m_firedOrCancelled
                   (callbackObjects
                      (serviceScriptedAnimations chainingScript frameViewBuild
                         twoPendingWorld) a) = false)
      (m_callbacks
         (controller (serviceScriptedAnimations chainingScript frameViewBuild
                        twoPendingWorld))).
Proof.
  split; [vm_compute; reflexivity |].
  destruct (frame_fires_pending_callbacks chainingScript frameViewBuild
              twoPendingWorld) as [_ H].
  apply H; [vm_compute; discriminate | reflexivity | reflexivity].
Defined.

Lemma quiet_frame_witness :
  firedCallbacks
    (events (serviceScriptedAnimations quietScript frameViewBuild twoPendingWorld))
  = [1%positive; 2%positive]
  ∧ m_callbacks
      (controller (serviceScriptedAnimations quietScript frameViewBuild
                     twoPendingWorld)) = [].
Proof.
  assert (Hnd : NoDup (m_callbacks (controller twoPendingWorld))).
  { vm_compute. apply NoDup_cons. split; [| apply NoDup_singleton].
    intros Hin. apply list_elem_of_singleton in Hin. discriminate. }
  destruct (quiet_frame quietScript ltac:(reflexivity) frameViewBuild twoPendingWorld
              Hnd ltac:(vm_compute; discriminate) eq_refl eq_refl) as (H1 & H2 & _).
  split; [| exact H2]. rewrite H1. vm_compute. reflexivity.
Defined.



End ScriptedAnimationControllerFacts.
